(** * gardener-resource-manager: the Secret-to-ManagedResource event mapper
    and the bootstrap of the controller manager binary.

  The development embeds two Go files:
  - [pkg/controller/managedresources/mapper.go], the event mapper that
    turns a Secret event into reconcile requests, and
  - the [app] package, which declares the command-line flags, resolves the
    credentials of the target cluster and wires manager, controller and
    watches together.

  Go packages become modules, structs become records, interfaces become
  records of functions, and calls that leave the process (environment,
  file system, API servers) are answered by a [World] and recorded in a
  trace. *)

From Stdlib Require Import String List Bool Arith ZArith QArith Lia.
From Stdlib Require Import Permutation.
Import ListNotations.
Local Open Scope string_scope.
Local Open Scope list_scope.
Local Open Scope nat_scope.

(** Go's [error] values; a nil error is the absence of one. *)
Inductive error : Type := errorString (msg : string).

(* ------------------------------------------------------------------ *)
(** ** Kubernetes API types, restricted to the fields the code reads    *)
(* ------------------------------------------------------------------ *)

Module metav1.
(** [metav1.ObjectMeta], embedded in every API object, so that Go's
    [obj.Namespace] is [Namespace (ObjectMeta obj)]. *)
Record ObjectMeta : Type := {
  Namespace : string;
  Name : string;
  Generation : Z
}.
End metav1.

Module corev1.
Record LocalObjectReference : Type := { Name : string }.

Record Secret : Type := { ObjectMeta : metav1.ObjectMeta }.
End corev1.

Module resourcesv1alpha1.
Record ManagedResourceSpec : Type := {
  SecretRefs : list corev1.LocalObjectReference
}.

Record ManagedResource : Type := {
  ObjectMeta : metav1.ObjectMeta;
  Spec : ManagedResourceSpec
}.

Record ManagedResourceList : Type := { Items : list ManagedResource }.
End resourcesv1alpha1.

Module runtime.
(** [runtime.Object] is an interface; the dynamic types that matter here
    are [*corev1.Secret] and [*ManagedResource], every other kind is
    [Other]. A nil interface value is [None] at the use site. Objects are
    handed over by the watch machinery, which delivers pointers to decoded
    objects, so a non-nil interface always carries an object. *)
Inductive Object : Type :=
| Secret (secret : corev1.Secret)
| ManagedResource (mr : resourcesv1alpha1.ManagedResource)
| Other (kind : string).
End runtime.

Module types.
Record NamespacedName : Type := { Namespace : string; Name : string }.
End types.

Module reconcile.
Record Request : Type := { NamespacedName : types.NamespacedName }.

Definition Request_eq_dec (x y : Request) : {x = y} + {x <> y}.
Proof.
  destruct x as [[xns xn]], y as [[yns yn]].
  destruct (string_dec xns yns) as [Hns | Hns];
    [destruct (string_dec xn yn) as [Hn | Hn] |].
  - left. now subst.
  - right. intros H. now inversion H.
  - right. intros H. now inversion H.
Defined.
End reconcile.

Module event.
Record CreateEvent : Type := { CreateObject : runtime.Object }.
Record UpdateEvent : Type := {
  ObjectOld : runtime.Object;
  ObjectNew : runtime.Object
}.
Record DeleteEvent : Type := { DeleteObject : runtime.Object }.
Record GenericEvent : Type := { Object : runtime.Object }.
End event.

Module predicate.
(** The [predicate.Predicate] interface of controller-runtime. *)
Record Predicate : Type := {
  Create : event.CreateEvent -> bool;
  Delete : event.DeleteEvent -> bool;
  Update : event.UpdateEvent -> bool;
  Generic : event.GenericEvent -> bool
}.
End predicate.

Module client.
Record ListOptions : Type := { Namespace : string }.

Definition InNamespace (ns : string) : ListOptions := {| Namespace := ns |}.

(** The part of the [client.Client] interface the mapper calls: [List]
    with list options, at the ManagedResourceList type. Go fills the list
    passed by pointer and returns an error; here the filled list is the
    result. *)
Record Client : Type := {
  List : ListOptions -> error + resourcesv1alpha1.ManagedResourceList
}.

(** [ListOptions.Namespace] selects one namespace; the empty string lists
    across all namespaces. *)
Definition inNamespace (opts : ListOptions)
    (mr : resourcesv1alpha1.ManagedResource) : bool :=
  if String.eqb (Namespace opts) "" then true
  else String.eqb (metav1.Namespace (resourcesv1alpha1.ObjectMeta mr))
                  (Namespace opts).

(** Modelled from the spec: the Kubernetes API machinery is an external
    collaborator "assumed to exist and behave per its documented
    contract". A client serves a cluster content [cluster] when every
    listing that succeeds returns exactly the stored ManagedResources
    selected by the list options. Listings may still fail. *)
Definition Serves (c : Client)
    (cluster : list resourcesv1alpha1.ManagedResource) : Prop :=
  forall opts l,
    List c opts = inr l ->
    forall mr, In mr (resourcesv1alpha1.Items l) <->
               In mr cluster /\ inNamespace opts mr = true.

(** A client in the manner of controller-runtime's fake client: it holds
    the objects itself, and [unavailable] makes every listing fail. *)
Definition fake (cluster : list resourcesv1alpha1.ManagedResource)
    (unavailable : option error) : Client :=
  {| List := fun opts =>
       match unavailable with
       | Some err => inl err
       | None =>
           inr {| resourcesv1alpha1.Items :=
                    filter (inNamespace opts) cluster |}
       end |}.
End client.

Module handler.
(** [handler.MapObject]; [Object] is an interface value and may be nil.
    The [Meta] field is not read by the mapper. *)
Record MapObject : Type := { Object : option runtime.Object }.
End handler.

Module extensionscontroller.
(** Modelled from the spec: [EvalGenericPredicate] belongs to the
    gardener-extensions dependency and is not among the sources. It wraps
    the object in a generic event and answers whether all predicates
    accept it, stopping at the first one that does not ("filtered by a
    predicate set"). *)
Fixpoint EvalGenericPredicate (obj : runtime.Object)
    (predicates : list predicate.Predicate) : bool :=
  match predicates with
  | [] => true
  | p :: rest =>
      if negb (predicate.Generic p {| event.Object := obj |}) then false
      else EvalGenericPredicate obj rest
  end.
End extensionscontroller.

(* ------------------------------------------------------------------ *)
(** ** pkg/controller/managedresources/mapper.go                        *)
(* ------------------------------------------------------------------ *)

Module managedresources.
Import resourcesv1alpha1.

Record secretToManagedResourceMapper : Type := {
  client : client.Client;
  predicates : list predicate.Predicate
}.

(** The request literal built in the inner loop of [Map]. *)
Definition requestFor (mr : ManagedResource) : reconcile.Request :=
  {| reconcile.NamespacedName :=
       {| types.Namespace := metav1.Namespace (ObjectMeta mr);
          types.Name := metav1.Name (ObjectMeta mr) |} |}.

(** [Map]. The two [for ... range] loops are left folds over the slices,
    [append] adds at the end, and the [continue] of the predicate check
    leaves the accumulated requests as they are. A nil slice and an empty
    slice are both the empty list. *)
Definition Map (m : secretToManagedResourceMapper) (obj : handler.MapObject)
    : list reconcile.Request :=
  match handler.Object obj with
  | None => []
  | Some object =>
      match object with
      | runtime.Secret secret =>
          match client.List (client m)
                  (client.InNamespace
                     (metav1.Namespace (corev1.ObjectMeta secret))) with
          | inl err => []
          | inr managedResourceList =>
              fold_left
                (fun requests mr =>
                   if negb (extensionscontroller.EvalGenericPredicate
                              (runtime.ManagedResource mr) (predicates m))
                   then requests
                   else
                     fold_left
                       (fun requests secretRef =>
                          if String.eqb (corev1.Name secretRef)
                               (metav1.Name (corev1.ObjectMeta secret))
                          then requests ++ [requestFor mr]
                          else requests)
                       (SecretRefs (Spec mr)) requests)
                (Items managedResourceList) []
          end
      | _ => []
      end
  end.

(** [SecretToManagedResourceMapper] returns a mapper that returns requests
    for ManagedResources whose referenced secrets have been modified. *)
Definition SecretToManagedResourceMapper (client : client.Client)
    (predicates : list predicate.Predicate) : secretToManagedResourceMapper :=
  {| client := client; predicates := predicates |}.
End managedresources.

(* ------------------------------------------------------------------ *)
(** ** The app package: types of the libraries it drives                *)
(* ------------------------------------------------------------------ *)

Module time.
(** [time.Duration] is an int64 count of nanoseconds. *)
Definition Duration : Type := Z.
Definition Nanosecond : Duration := 1%Z.
Definition Second : Duration := (1000000000 * Nanosecond)%Z.
Definition Minute : Duration := (60 * Second)%Z.
End time.

Module rest.
(** [rest.Config]: the server address and the two client-side rate
    limiting fields. [QPS] is a float32 in Go; the only value the code
    writes is the literal 100.0, kept here as a rational. *)
Record Config : Type := {
  Host : string;
  QPS : Q;
  Burst : Z
}.
End rest.

Module user.
Record User : Type := { HomeDir : string }.
End user.

Module manager.
Record Options : Type := {
  LeaderElection : bool;
  LeaderElectionID : string;
  LeaderElectionNamespace : string;
  SyncPeriod : option time.Duration;
  Namespace : string
}.

(** What the program asks of a manager: its client for the source
    cluster. *)
Record Manager : Type := { GetClient : client.Client }.
End manager.

Module source.
(** [source.Kind{Type: ...}], by the type that is watched. *)
Inductive Kind : Type := ManagedResource | Secret.
End source.

Module eventhandler.
(** The two event handlers the program registers. *)
Inductive EventHandler : Type :=
| EnqueueRequestForObject
| EnqueueRequestsFromMapFunc
    (ToRequests : managedresources.secretToManagedResourceMapper).
End eventhandler.

Module reconciler.
(** Modelled from the spec: [managedresources.NewReconciler] is not among
    the sources; the reconciler is kept as the two clients it is built
    from (context, logger and scheme carry no data of interest here). *)
Record Reconciler : Type := {
  sourceClient : client.Client;
  targetClient : client.Client
}.

Definition NewReconciler (c targetClient : client.Client) : Reconciler :=
  {| sourceClient := c; targetClient := targetClient |}.
End reconciler.

Module controller.
Record Options : Type := {
  MaxConcurrentReconciles : Z;
  Reconciler : reconciler.Reconciler
}.

Record Controller : Type := { Name : string; Opts : Options }.
End controller.

(* ------------------------------------------------------------------ *)
(** ** Calls that leave the process                                     *)
(* ------------------------------------------------------------------ *)

(** Every call the program itself makes to the operating system or to a
    library that talks to a cluster is recorded, with its arguments, in
    the order it is made. What a library does inside such a call (the
    files and variables it reads on its own) is part of the answer of the
    world and does not appear in the trace. *)
Inductive Call : Type :=
| Getenv (key : string)
| BuildConfigFromFlags (masterUrl kubeconfigPath : string)
| InClusterConfig
| UserCurrent
| GetConfigOrDie
| ManagerNew (config : rest.Config) (options : manager.Options)
| AddToScheme
| ClientNew (config : rest.Config)
| ControllerNew (name : string) (options : controller.Options)
| Watch (src : source.Kind) (hdl : eventhandler.EventHandler)
    (predicates : list predicate.Predicate)
| Start
| Exit (code : Z).

(** The answers of the outside world. *)
Record World : Type := {
  environ : string -> string;
  kubeconfigFile : string -> error + rest.Config;
  inCluster : error + rest.Config;
  currentUser : error + user.User;
  pathJoin : list string -> string;
  defaultConfig : error + rest.Config;
  newManager : rest.Config -> manager.Options -> error + manager.Manager;
  newClient : rest.Config -> error + client.Client;
  newControllerError : string -> controller.Options -> option error;
  watchError : source.Kind -> option error;
  startError : option error
}.

(** Computations that record their calls. *)
Definition M (A : Type) : Type := (list Call * A)%type.

Definition ret {A : Type} (a : A) : M A := ([], a).

Definition bind {A B : Type} (c : M A) (k : A -> M B) : M B :=
  let (t, a) := c in
  let (t', b) := k a in
  (t ++ t', b).

Definition call {A : Type} (c : Call) (answer : A) : M A := ([c], answer).

Definition trace {A : Type} (c : M A) : list Call := fst c.
Definition result {A : Type} (c : M A) : A := snd c.

Notation "x <- c ;; k" := (bind c (fun x => k))
  (at level 61, c at next level, right associativity).
Notation "c ;;; k" := (bind c (fun _ => k))
  (at level 61, right associativity).

Definition os_Getenv (w : World) (key : string) : M string :=
  call (Getenv key) (environ w key).

(** [clientcmd.BuildConfigFromFlags masterUrl kubeconfigPath] with a
    kubeconfig path loads that file. *)
Definition clientcmd_BuildConfigFromFlags (w : World)
    (masterUrl kubeconfigPath : string) : M (error + rest.Config) :=
  call (BuildConfigFromFlags masterUrl kubeconfigPath)
       (kubeconfigFile w kubeconfigPath).

Definition rest_InClusterConfig (w : World) : M (error + rest.Config) :=
  call InClusterConfig (inCluster w).

Definition user_Current (w : World) : M (error + user.User) :=
  call UserCurrent (currentUser w).

(** [filepath.Join] depends on the platform (separator, cleaning). *)
Definition filepath_Join (w : World) (elem : list string) : string :=
  pathJoin w elem.

Definition client_New (w : World) (config : rest.Config)
    : M (error + client.Client) :=
  call (ClientNew config) (newClient w config).

Definition manager_New (w : World) (config : rest.Config)
    (options : manager.Options) : M (error + manager.Manager) :=
  call (ManagerNew config options) (newManager w config options).

Definition controller_New (w : World) (name : string)
    (options : controller.Options) : M (error + controller.Controller) :=
  call (ControllerNew name options)
       (match newControllerError w name options with
        | Some err => inl err
        | None => inr {| controller.Name := name; controller.Opts := options |}
        end).

Definition controller_Watch (w : World) (src : source.Kind)
    (hdl : eventhandler.EventHandler) (predicates : list predicate.Predicate)
    : M (option error) :=
  call (Watch src hdl predicates) (watchError w src).

Definition manager_Start (w : World) : M (option error) :=
  call Start (startError w).

(** [os.Exit] ends the process: nothing follows it in a trace. *)
Definition os_Exit (code : Z) : M unit := call (Exit code) tt.

Definition fmt_Errorf (format : string) : error := errorString format.

(* ------------------------------------------------------------------ *)
(** ** The app package                                                  *)
(* ------------------------------------------------------------------ *)

Module app.

(** The local variables of [NewControllerManagerCommand] that the flags
    write and that [Run] reads. *)
Record vars : Type := {
  leaderElection : bool;
  leaderElectionNamespace : string;
  syncPeriod : time.Duration;
  targetKubeconfigPath : string;
  maxConcurrentWorkers : Z;
  namespace : string
}.

(** Go's zero values, before any flag is declared. *)
Definition zero : vars :=
  {| leaderElection := false;
     leaderElectionNamespace := "";
     syncPeriod := 0%Z;
     targetKubeconfigPath := "";
     maxConcurrentWorkers := 0%Z;
     namespace := "" |}.

(** A pointer to one of the variables: how to write through it. *)
Definition ptr (T : Type) : Type := T -> vars -> vars.

Definition leaderElection_ptr : ptr bool := fun x v =>
  {| leaderElection := x;
     leaderElectionNamespace := leaderElectionNamespace v;
     syncPeriod := syncPeriod v;
     targetKubeconfigPath := targetKubeconfigPath v;
     maxConcurrentWorkers := maxConcurrentWorkers v;
     namespace := namespace v |}.

Definition leaderElectionNamespace_ptr : ptr string := fun x v =>
  {| leaderElection := leaderElection v;
     leaderElectionNamespace := x;
     syncPeriod := syncPeriod v;
     targetKubeconfigPath := targetKubeconfigPath v;
     maxConcurrentWorkers := maxConcurrentWorkers v;
     namespace := namespace v |}.

Definition syncPeriod_ptr : ptr time.Duration := fun x v =>
  {| leaderElection := leaderElection v;
     leaderElectionNamespace := leaderElectionNamespace v;
     syncPeriod := x;
     targetKubeconfigPath := targetKubeconfigPath v;
     maxConcurrentWorkers := maxConcurrentWorkers v;
     namespace := namespace v |}.

Definition targetKubeconfigPath_ptr : ptr string := fun x v =>
  {| leaderElection := leaderElection v;
     leaderElectionNamespace := leaderElectionNamespace v;
     syncPeriod := syncPeriod v;
     targetKubeconfigPath := x;
     maxConcurrentWorkers := maxConcurrentWorkers v;
     namespace := namespace v |}.

Definition maxConcurrentWorkers_ptr : ptr Z := fun x v =>
  {| leaderElection := leaderElection v;
     leaderElectionNamespace := leaderElectionNamespace v;
     syncPeriod := syncPeriod v;
     targetKubeconfigPath := targetKubeconfigPath v;
     maxConcurrentWorkers := x;
     namespace := namespace v |}.

Definition namespace_ptr : ptr string := fun x v =>
  {| leaderElection := leaderElection v;
     leaderElectionNamespace := leaderElectionNamespace v;
     syncPeriod := syncPeriod v;
     targetKubeconfigPath := targetKubeconfigPath v;
     maxConcurrentWorkers := maxConcurrentWorkers v;
     namespace := x |}.

(** pflag: a flag's value wraps the pointer it writes to, by type. *)
Inductive Value : Type :=
| boolValue (p : ptr bool)
| stringValue (p : ptr string)
| durationValue (p : ptr time.Duration)
| intValue (p : ptr Z).

Record Flag : Type := {
  Name : string;
  Usage : string;
  FlagValue : Value
}.

(** A command line argument for a flag, after pflag parsed its text. *)
Inductive Arg : Type :=
| boolArg (b : bool)
| stringArg (s : string)
| durationArg (d : time.Duration)
| intArg (i : Z).

(** The command under construction: its flag set and the variables the
    flags point to. *)
Record Command : Type := {
  Use : string;
  Flags : list Flag;
  Vars : vars
}.

(** [FlagSet.BoolVar] and its siblings declare a flag and store the default
    through the pointer. *)
Definition declare (value : Value) (name usage : string) (store : vars -> vars)
    (cmd : Command) : Command :=
  {| Use := Use cmd;
     Flags := Flags cmd ++
              [{| Name := name; Usage := usage; FlagValue := value |}];
     Vars := store (Vars cmd) |}.

Definition BoolVar (p : ptr bool) (name : string) (value : bool)
    (usage : string) : Command -> Command :=
  declare (boolValue p) name usage (p value).

Definition StringVar (p : ptr string) (name : string) (value : string)
    (usage : string) : Command -> Command :=
  declare (stringValue p) name usage (p value).

Definition DurationVar (p : ptr time.Duration) (name : string)
    (value : time.Duration) (usage : string) : Command -> Command :=
  declare (durationValue p) name usage (p value).

Definition IntVar (p : ptr Z) (name : string) (value : Z)
    (usage : string) : Command -> Command :=
  declare (intValue p) name usage (p value).

(** [FlagSet.Lookup]. *)
Definition Lookup (cmd : Command) (name : string) : option Flag :=
  find (fun f => String.eqb (Name f) name) (Flags cmd).

(** The range of Go's int64. It bounds [time.Duration], and [int] on the
    64-bit platforms the binary is built for; pflag parses both kinds of
    argument at 64 bits. *)
Definition inInt64 (z : Z) : bool :=
  ((-9223372036854775808 <=? z) && (z <=? 9223372036854775807))%Z.

(** [FlagSet.Set]: an unknown flag, an argument of the wrong type, and a
    duration or an integer outside the int64 range are errors; otherwise
    the argument is written through the flag's pointer. *)
Definition Set_ (cmd : Command) (name : string) (arg : Arg)
    : error + Command :=
  match Lookup cmd name with
  | None => inl (errorString "no such flag")
  | Some f =>
      match FlagValue f, arg with
      | boolValue p, boolArg b =>
          inr {| Use := Use cmd; Flags := Flags cmd; Vars := p b (Vars cmd) |}
      | stringValue p, stringArg s =>
          inr {| Use := Use cmd; Flags := Flags cmd; Vars := p s (Vars cmd) |}
      | durationValue p, durationArg d =>
          if inInt64 d
          then inr {| Use := Use cmd; Flags := Flags cmd;
                      Vars := p d (Vars cmd) |}
          else inl (errorString "value out of range")
      | intValue p, intArg i =>
          if inInt64 i
          then inr {| Use := Use cmd; Flags := Flags cmd;
                      Vars := p i (Vars cmd) |}
          else inl (errorString "value out of range")
      | _, _ => inl (errorString "invalid argument")
      end
  end.

(** Parsing a command line sets the given flags from left to right and
    stops at the first error. *)
Fixpoint Parse (cmd : Command) (args : list (string * Arg))
    : error + Command :=
  match args with
  | [] => inr cmd
  | (name, arg) :: rest =>
      match Set_ cmd name arg with
      | inl err => inl err
      | inr cmd' => Parse cmd' rest
      end
  end.

(** The flag declarations of [NewControllerManagerCommand], in source
    order. *)
Definition NewControllerManagerCommand : Command :=
  let cmd := {| Use := "gardener-resource-manager"; Flags := []; Vars := zero |} in
  let cmd := BoolVar leaderElection_ptr "leader-election" true
               "enable or disable leader election" cmd in
  let cmd := StringVar leaderElectionNamespace_ptr "leader-election-namespace" ""
               "namespace for leader election" cmd in
  let cmd := DurationVar syncPeriod_ptr "sync-period" time.Minute
               "duration how often existing resources should be synced" cmd in
  let cmd := StringVar targetKubeconfigPath_ptr "target-kubeconfig" ""
               "path to the kubeconfig for the target cluster" cmd in
  let cmd := IntVar maxConcurrentWorkers_ptr "max-concurrent-workers" 10
               "number of worker threads for concurrent reconciliation of resources"
               cmd in
  let cmd := StringVar namespace_ptr "namespace" ""
               "namespace in which the ManagedResources should be observed (defaults to all namespaces)"
               cmd in
  cmd.

(** [getTargetConfig]: the explicit path, then the KUBECONFIG variable,
    then the in-cluster configuration, then the kubeconfig in the home
    directory of the current user. *)
Definition getTargetConfig (w : World) (kubeconfigPath : string)
    : M (error + rest.Config) :=
  if (0 <? String.length kubeconfigPath)%nat then
    clientcmd_BuildConfigFromFlags w "" kubeconfigPath
  else
    kubeconfig <- os_Getenv w "KUBECONFIG" ;;
    if (0 <? String.length kubeconfig)%nat then
      clientcmd_BuildConfigFromFlags w "" kubeconfig
    else
      r <- rest_InClusterConfig w ;;
      match r with
      | inr c => ret (inr c)
      | inl _ =>
          u <- user_Current w ;;
          match u with
          | inr usr =>
              r' <- clientcmd_BuildConfigFromFlags w ""
                      (filepath_Join w [user.HomeDir usr; ".kube"; "config"]) ;;
              match r' with
              | inr c => ret (inr c)
              | inl _ =>
                  ret (inl (fmt_Errorf "could not create config for cluster"))
              end
          | inl _ =>
              ret (inl (fmt_Errorf "could not create config for cluster"))
          end
      end.

(** [getTargetClient]: the two rate limiting fields are overwritten with
    literals before the client is made. *)
Definition getTargetClient (w : World) (kubeconfigPath : string)
    : M (error + client.Client) :=
  r <- getTargetConfig w kubeconfigPath ;;
  match r with
  | inl err => ret (inl err)
  | inr targetConfig =>
      let targetConfig :=
        {| rest.Host := rest.Host targetConfig;
           rest.QPS := 100.0%Q;
           rest.Burst := 130%Z |} in
      client_New w targetConfig
  end.

(** [config.GetConfigOrDie] exits the process when no configuration for the
    source cluster is found. It is one call of the program; the lookups
    controller-runtime performs inside it are not calls of the program and
    are covered by the answer [defaultConfig]. *)
Definition config_GetConfigOrDie (w : World) : M (option rest.Config) :=
  r <- call GetConfigOrDie (defaultConfig w) ;;
  match r with
  | inl _ => os_Exit 1 ;;; ret None
  | inr c => ret (Some c)
  end.

(** The options [Run] hands to [manager.New] and [controller.New]. *)
Definition managerOptions (v : vars) : manager.Options :=
  {| manager.LeaderElection := leaderElection v;
     manager.LeaderElectionID := "gardener-resource-manager";
     manager.LeaderElectionNamespace := leaderElectionNamespace v;
     manager.SyncPeriod := Some (syncPeriod v);
     manager.Namespace := namespace v |}.

Definition controllerOptions (v : vars) (mgr : manager.Manager)
    (targetClient : client.Client) : controller.Options :=
  {| controller.MaxConcurrentReconciles := maxConcurrentWorkers v;
     controller.Reconciler :=
       reconciler.NewReconciler (manager.GetClient mgr) targetClient |}.

Section Run.

(** [managedresources.GenerationChangedPredicate()] is declared in a file
    that is not among the sources; it is a parameter of the model. *)
Variable GenerationChangedPredicate : predicate.Predicate.

(** The [Run] closure of the command, reading the variables [v] as the
    parsed flags left them. Each [os.Exit(1)] ends the run; log lines are
    not part of the model. *)
Definition Run (w : World) (v : vars) : M unit :=
  cfg <- config_GetConfigOrDie w ;;
  match cfg with
  | None => ret tt
  | Some cfg =>
  r <- manager_New w cfg (managerOptions v) ;;
  match r with
  | inl err => os_Exit 1
  | inr mgr =>
  call AddToScheme tt ;;;
  r <- getTargetClient w (targetKubeconfigPath v) ;;
  match r with
  | inl err => os_Exit 1
  | inr targetClient =>
  r <- controller_New w "resource-controller"
         (controllerOptions v mgr targetClient) ;;
  match r with
  | inl err => os_Exit 1
  | inr c =>
  e <- controller_Watch w source.ManagedResource
         eventhandler.EnqueueRequestForObject
         [GenerationChangedPredicate] ;;
  match e with
  | Some err => os_Exit 1
  | None =>
  e <- controller_Watch w source.Secret
         (eventhandler.EnqueueRequestsFromMapFunc
            (managedresources.SecretToManagedResourceMapper
               (manager.GetClient mgr) []))
         [] ;;
  match e with
  | Some err => os_Exit 1
  | None =>
  e <- manager_Start w ;;
  match e with
  | Some err => os_Exit 1
  | None => ret tt
  end end end end end end end.

End Run.

End app.

(* ------------------------------------------------------------------ *)
(** ** Vocabulary of the specification                                  *)
(* ------------------------------------------------------------------ *)

Import resourcesv1alpha1.
Import managedresources.

(** The event a changed Secret arrives as. *)
Definition secretEvent (secret : corev1.Secret) : handler.MapObject :=
  {| handler.Object := Some (runtime.Secret secret) |}.

Definition secretNamespace (secret : corev1.Secret) : string :=
  metav1.Namespace (corev1.ObjectMeta secret).

Definition secretName (secret : corev1.Secret) : string :=
  metav1.Name (corev1.ObjectMeta secret).

(** The ManagedResource lives in the namespace of the Secret. *)
Definition sameNamespace (mr : ManagedResource) (secret : corev1.Secret)
    : Prop :=
  metav1.Namespace (ObjectMeta mr) = secretNamespace secret.

(** [spec.secretRefs] contains a reference with the given name. *)
Definition references (mr : ManagedResource) (name : string) : Prop :=
  exists secretRef,
    In secretRef (SecretRefs (Spec mr)) /\ corev1.Name secretRef = name.

(** How many entries of [spec.secretRefs] carry the given name. *)
Definition referenceCount (mr : ManagedResource) (name : string) : nat :=
  count_occ string_dec (map corev1.Name (SecretRefs (Spec mr))) name.

(** The generic event of the ManagedResource is accepted by every
    predicate of the set. *)
Definition passes (mr : ManagedResource)
    (predicates : list predicate.Predicate) : Prop :=
  forall p, In p predicates ->
    predicate.Generic p {| event.Object := runtime.ManagedResource mr |} = true.

(** What one ManagedResource of the listing adds to the requests. *)
Definition requestsOf (predicates : list predicate.Predicate)
    (name : string) (mr : ManagedResource) : list reconcile.Request :=
  if extensionscontroller.EvalGenericPredicate
       (runtime.ManagedResource mr) predicates
  then repeat (requestFor mr) (referenceCount mr name)
  else [].

(** C1 as the claim words it: the requests are exactly those of the
    ManagedResources of the cluster that live in the Secret's namespace and
    reference the Secret by name. *)
Definition ReturnsExactlyReferencing (m : secretToManagedResourceMapper)
    (cluster : list ManagedResource) (secret : corev1.Secret) : Prop :=
  forall r,
    In r (Map m (secretEvent secret)) <->
    exists mr, In mr cluster /\ sameNamespace mr secret /\
               references mr (secretName secret) /\ r = requestFor mr.

(** A call returned an error. *)
Definition isError {A : Type} (r : error + A) : Prop := exists err, r = inl err.

(** The credential sources of the target cluster. *)
Inductive Source : Type := FlagPath | EnvVar | InClusterSource | HomeFile.

(** What a source yields when asked on its own: the file named by the flag
    or by KUBECONFIG when one is named, the in-cluster configuration, the
    kubeconfig in the home directory of the current user. *)
Definition sourceConfig (w : World) (kubeconfigPath : string) (s : Source)
    : error + rest.Config :=
  match s with
  | FlagPath =>
      if (0 <? String.length kubeconfigPath)%nat
      then kubeconfigFile w kubeconfigPath
      else inl (errorString "no kubeconfig path given")
  | EnvVar =>
      if (0 <? String.length (environ w "KUBECONFIG"))%nat
      then kubeconfigFile w (environ w "KUBECONFIG")
      else inl (errorString "KUBECONFIG is not set")
  | InClusterSource => inCluster w
  | HomeFile =>
      match currentUser w with
      | inr usr =>
          kubeconfigFile w
            (filepath_Join w [user.HomeDir usr; ".kube"; "config"])
      | inl err => inl err
      end
  end.

(** C2 as the claim words it, with the in-cluster configuration ahead of
    the environment variable: without an explicit path an available
    in-cluster configuration is the one returned, and the environment
    variable is consulted only when the in-cluster configuration is
    unavailable. *)
Definition ClaimedOrder (w : World) (kubeconfigPath : string) : Prop :=
  (kubeconfigPath = "" ->
   forall c, inCluster w = inr c ->
     result (app.getTargetConfig w kubeconfigPath) = inr c) /\
  (In (Getenv "KUBECONFIG") (trace (app.getTargetConfig w kubeconfigPath)) ->
   isError (inCluster w)).

(** C5 as the claim words it: an error exactly when every source of the
    chain fails to produce a configuration. *)
Definition ErrorIffEverySourceFails (w : World) (kubeconfigPath : string)
    : Prop :=
  isError (result (app.getTargetConfig w kubeconfigPath)) <->
  forall s, isError (sourceConfig w kubeconfigPath s).

(** C3 as the claim words it: the operator, through flags or environment,
    can obtain target clients with different rate limits. *)
Definition RateLimitsConfigurable : Prop :=
  exists g w v w' v' config config',
    In (ClientNew config) (trace (app.Run g w v)) /\
    In (ClientNew config') (trace (app.Run g w' v')) /\
    (rest.QPS config <> rest.QPS config' \/
     rest.Burst config <> rest.Burst config').

(** The names of the declared flags. *)
Definition flagNames (cmd : app.Command) : list string :=
  map app.Name (app.Flags cmd).

(* ------------------------------------------------------------------ *)
(** ** Sample clusters and worlds                                       *)
(* ------------------------------------------------------------------ *)

Module sample.

Definition managedResource (ns name : string) (generation : Z)
    (secrets : list string) : ManagedResource :=
  {| ObjectMeta := {| metav1.Namespace := ns; metav1.Name := name;
                      metav1.Generation := generation |};
     Spec := {| SecretRefs :=
                  map (fun n => {| corev1.Name := n |}) secrets |} |}.

Definition s1 : corev1.Secret :=
  {| corev1.ObjectMeta := {| metav1.Namespace := "garden"; metav1.Name := "s1";
                             metav1.Generation := 0 |} |}.

Definition mr1 := managedResource "garden" "mr1" 1 ["s1"].
Definition mr2 := managedResource "garden" "mr2" 2 ["s1"; "s2"; "s1"].
Definition mr3 := managedResource "other" "mr3" 1 ["s1"].
Definition mr4 := managedResource "garden" "mr4" 1 ["s2"].

Definition cluster : list ManagedResource := [mr1; mr2; mr3; mr4].

Definition apiDown : error := errorString "the server is currently unable to handle the request".

(** A predicate whose generic function accepts only objects that were
    changed after their creation. *)
Definition changedSinceCreation : predicate.Predicate :=
  {| predicate.Create := fun _ => true;
     predicate.Delete := fun _ => true;
     predicate.Update := fun _ => true;
     predicate.Generic := fun e =>
       match event.Object e with
       | runtime.ManagedResource mr =>
           (1 <? metav1.Generation (ObjectMeta mr))%Z
       | _ => true
       end |}.

Definition acceptAll : predicate.Predicate :=
  {| predicate.Create := fun _ => true;
     predicate.Delete := fun _ => true;
     predicate.Update := fun _ => true;
     predicate.Generic := fun _ => true |}.

Definition kubeconfigA : rest.Config :=
  {| rest.Host := "https://a.example"; rest.QPS := 5%Q; rest.Burst := 10%Z |}.
Definition kubeconfigB : rest.Config :=
  {| rest.Host := "https://b.example"; rest.QPS := 50%Q; rest.Burst := 100%Z |}.
Definition kubeconfigC : rest.Config :=
  {| rest.Host := "https://c.example"; rest.QPS := 0%Q; rest.Burst := 0%Z |}.

Definition noSuchFile : error := errorString "no such file or directory".
Definition notInCluster : error := errorString "unable to load in-cluster configuration".

(** A world given by its environment, its kubeconfig files and its
    in-cluster configuration; the home directory is /root, the source
    cluster holds [cluster], and every library call succeeds. *)
Definition world (env : string -> string)
    (files : string -> error + rest.Config)
    (incluster : error + rest.Config) : World :=
  {| environ := env;
     kubeconfigFile := files;
     inCluster := incluster;
     currentUser := inr {| user.HomeDir := "/root" |};
     pathJoin := String.concat "/";
     defaultConfig := inr kubeconfigC;
     newManager := fun _ _ =>
       inr {| manager.GetClient := client.fake cluster None |};
     newClient := fun _ => inr (client.fake [] None);
     newControllerError := fun _ _ => None;
     watchError := fun _ => None;
     startError := None |}.

Definition noEnv : string -> string := fun _ => "".
Definition envKubeconfig (path : string) : string -> string :=
  fun key => if String.eqb key "KUBECONFIG" then path else "".

(** Kubeconfig files: /etc/a holds A, /etc/b holds B, /root/.kube/config
    holds C, nothing else exists. *)
Definition files (path : string) : error + rest.Config :=
  if String.eqb path "/etc/a" then inr kubeconfigA
  else if String.eqb path "/etc/b" then inr kubeconfigB
  else if String.eqb path "/root/.kube/config" then inr kubeconfigC
  else inl noSuchFile.

Definition noFiles (path : string) : error + rest.Config := inl noSuchFile.

End sample.

(** All the references of a listing, whatever Secret they name. *)
Definition listedReferences (items : list ManagedResource)
    : list corev1.LocalObjectReference :=
  flat_map (fun mr => SecretRefs (Spec mr)) items.

(** A call that loads a kubeconfig file. *)
Definition isLoad (c : Call) : bool :=
  match c with
  | BuildConfigFromFlags _ _ => true
  | _ => false
  end.

(** The configuration [getTargetClient] hands to [client.New]. *)
Definition rateLimited (targetConfig : rest.Config) : rest.Config :=
  {| rest.Host := rest.Host targetConfig;
     rest.QPS := 100.0%Q;
     rest.Burst := 130%Z |}.

(** The two watch registrations of [Run]. *)
Definition managedResourceWatch (g : predicate.Predicate) : Call :=
  Watch source.ManagedResource eventhandler.EnqueueRequestForObject [g].

Definition secretWatch (mgr : manager.Manager) : Call :=
  Watch source.Secret
    (eventhandler.EnqueueRequestsFromMapFunc
       (SecretToManagedResourceMapper (manager.GetClient mgr) []))
    [].

(** The calls of a run up to and including the creation of the target
    client. *)
Definition prelude (w : World) (v : app.vars) (config : rest.Config)
    : list Call :=
  [GetConfigOrDie; ManagerNew config (app.managerOptions v); AddToScheme]
  ++ trace (app.getTargetClient w (app.targetKubeconfigPath v)).

(** How far a run gets. *)
Inductive Stage : Type :=
| AtConfig | AtManager | AtTargetClient | AtController
| AtManagedResourceWatch | AtSecretWatch | AtStart | Done.

(** The outcomes of [Run]: the step that failed, what the world answered
    up to there, and the calls made. *)
Inductive RunOutcome (g : predicate.Predicate) (w : World) (v : app.vars)
    : Stage -> list Call -> Prop :=
| noConfig err :
    defaultConfig w = inl err ->
    RunOutcome g w v AtConfig [GetConfigOrDie; Exit 1]
| noManager config err :
    defaultConfig w = inr config ->
    newManager w config (app.managerOptions v) = inl err ->
    RunOutcome g w v AtManager
      [GetConfigOrDie; ManagerNew config (app.managerOptions v); Exit 1]
| noTargetClient config mgr err :
    defaultConfig w = inr config ->
    newManager w config (app.managerOptions v) = inr mgr ->
    result (app.getTargetClient w (app.targetKubeconfigPath v)) = inl err ->
    RunOutcome g w v AtTargetClient (prelude w v config ++ [Exit 1])
| noController config mgr targetClient err :
    defaultConfig w = inr config ->
    newManager w config (app.managerOptions v) = inr mgr ->
    result (app.getTargetClient w (app.targetKubeconfigPath v))
      = inr targetClient ->
    newControllerError w "resource-controller"
      (app.controllerOptions v mgr targetClient) = Some err ->
    RunOutcome g w v AtController
      (prelude w v config ++
       [ControllerNew "resource-controller"
          (app.controllerOptions v mgr targetClient);
        Exit 1])
| noManagedResourceWatch config mgr targetClient err :
    defaultConfig w = inr config ->
    newManager w config (app.managerOptions v) = inr mgr ->
    result (app.getTargetClient w (app.targetKubeconfigPath v))
      = inr targetClient ->
    newControllerError w "resource-controller"
      (app.controllerOptions v mgr targetClient) = None ->
    watchError w source.ManagedResource = Some err ->
    RunOutcome g w v AtManagedResourceWatch
      (prelude w v config ++
       [ControllerNew "resource-controller"
          (app.controllerOptions v mgr targetClient);
        managedResourceWatch g; Exit 1])
| noSecretWatch config mgr targetClient err :
    defaultConfig w = inr config ->
    newManager w config (app.managerOptions v) = inr mgr ->
    result (app.getTargetClient w (app.targetKubeconfigPath v))
      = inr targetClient ->
    newControllerError w "resource-controller"
      (app.controllerOptions v mgr targetClient) = None ->
    watchError w source.ManagedResource = None ->
    watchError w source.Secret = Some err ->
    RunOutcome g w v AtSecretWatch
      (prelude w v config ++
       [ControllerNew "resource-controller"
          (app.controllerOptions v mgr targetClient);
        managedResourceWatch g; secretWatch mgr; Exit 1])
| startFailed config mgr targetClient err :
    defaultConfig w = inr config ->
    newManager w config (app.managerOptions v) = inr mgr ->
    result (app.getTargetClient w (app.targetKubeconfigPath v))
      = inr targetClient ->
    newControllerError w "resource-controller"
      (app.controllerOptions v mgr targetClient) = None ->
    watchError w source.ManagedResource = None ->
    watchError w source.Secret = None ->
    startError w = Some err ->
    RunOutcome g w v AtStart
      (prelude w v config ++
       [ControllerNew "resource-controller"
          (app.controllerOptions v mgr targetClient);
        managedResourceWatch g; secretWatch mgr; Start; Exit 1])
| started config mgr targetClient :
    defaultConfig w = inr config ->
    newManager w config (app.managerOptions v) = inr mgr ->
    result (app.getTargetClient w (app.targetKubeconfigPath v))
      = inr targetClient ->
    newControllerError w "resource-controller"
      (app.controllerOptions v mgr targetClient) = None ->
    watchError w source.ManagedResource = None ->
    watchError w source.Secret = None ->
    startError w = None ->
    RunOutcome g w v Done
      (prelude w v config ++
       [ControllerNew "resource-controller"
          (app.controllerOptions v mgr targetClient);
        managedResourceWatch g; secretWatch mgr; Start]).

(** A world in which a chosen step of the setup fails. *)
Definition failingWorld (controllerFails watchFails : bool) : World :=
  {| environ := sample.noEnv;
     kubeconfigFile := sample.files;
     inCluster := inr sample.kubeconfigB;
     currentUser := inr {| user.HomeDir := "/root" |};
     pathJoin := String.concat "/";
     defaultConfig := inr sample.kubeconfigC;
     newManager := fun _ _ =>
       inr {| manager.GetClient := client.fake sample.cluster None |};
     newClient := fun _ => inr (client.fake [] None);
     newControllerError := fun _ _ =>
       if controllerFails then Some sample.apiDown else None;
     watchError := fun _ =>
       if watchFails then Some sample.apiDown else None;
     startError := None |}.

(* ------------------------------------------------------------------ *)
(** ** The mapper: loops as list functions                              *)
(* ------------------------------------------------------------------ *)

Section MapperLoops.

Variable predicates : list predicate.Predicate.
Variable name : string.

Lemma EvalGenericPredicate_true_iff mr :
  extensionscontroller.EvalGenericPredicate
    (runtime.ManagedResource mr) predicates = true <->
  passes mr predicates.
Proof.
  unfold passes. induction predicates as [| p ps IH]; simpl.
  - split; [intros _ q [] | reflexivity].
  - destruct (predicate.Generic p _) eqn:Hp; simpl.
    + rewrite IH. split.
      * intros H q [<- | Hq]; auto.
      * intros H q Hq. apply H. now right.
    + split; [discriminate |].
      intros H. rewrite <- Hp. symmetry. rewrite H by now left.
      now rewrite H in Hp by now left.
Qed.

Lemma EvalGenericPredicate_false_iff mr :
  extensionscontroller.EvalGenericPredicate
    (runtime.ManagedResource mr) predicates = false <->
  exists p, In p predicates /\
    predicate.Generic p {| event.Object := runtime.ManagedResource mr |} = false.
Proof.
  induction predicates as [| p ps IH]; simpl.
  - split; [discriminate | intros (q & [] & _)].
  - destruct (predicate.Generic p _) eqn:Hp; simpl.
    + rewrite IH. split.
      * intros (q & Hq & Hf). exists q. auto.
      * intros (q & [<- | Hq] & Hf); [congruence | eauto].
    + split; [| reflexivity]. intros _. exists p. auto.
Qed.

(** The inner loop appends one request per reference with the name. *)
Lemma inner_loop r (secretRefs : list corev1.LocalObjectReference) :
  forall requests : list reconcile.Request,
    fold_left
      (fun requests secretRef =>
         if String.eqb (corev1.Name secretRef) name
         then requests ++ [r] else requests)
      secretRefs requests
    = requests ++
      repeat r (count_occ string_dec (map corev1.Name secretRefs) name).
Proof.
  induction secretRefs as [| ref refs IH]; intros requests; simpl.
  - now rewrite app_nil_r.
  - rewrite IH. destruct (String.eqb_spec (corev1.Name ref) name) as [E | E].
    + destruct (string_dec (corev1.Name ref) name); [| contradiction].
      simpl. now rewrite <- app_assoc.
    + destruct (string_dec (corev1.Name ref) name); [contradiction |].
      reflexivity.
Qed.

(** The outer loop concatenates what each listed ManagedResource adds. *)
Lemma outer_loop (items : list ManagedResource) :
  forall requests : list reconcile.Request,
    fold_left
      (fun requests mr =>
         if negb (extensionscontroller.EvalGenericPredicate
                    (runtime.ManagedResource mr) predicates)
         then requests
         else
           fold_left
             (fun requests secretRef =>
                if String.eqb (corev1.Name secretRef) name
                then requests ++ [requestFor mr] else requests)
             (SecretRefs (Spec mr)) requests)
      items requests
    = requests ++ flat_map (requestsOf predicates name) items.
Proof.
  induction items as [| mr items IH]; intros requests; simpl.
  - now rewrite app_nil_r.
  - rewrite IH. unfold requestsOf at 2, referenceCount.
    destruct (extensionscontroller.EvalGenericPredicate _ _); simpl.
    + rewrite inner_loop. now rewrite <- app_assoc.
    + reflexivity.
Qed.

Lemma In_requestsOf r mr :
  In r (requestsOf predicates name mr) <->
  passes mr predicates /\ references mr name /\ r = requestFor mr.
Proof.
  unfold requestsOf, referenceCount, references.
  destruct (extensionscontroller.EvalGenericPredicate _ _) eqn:He.
  - apply EvalGenericPredicate_true_iff in He. split.
    + intros Hin. pose proof (repeat_spec _ _ _ Hin) as ->.
      repeat split; trivial.
      destruct (count_occ _ _ _) eqn:Hc; [now simpl in Hin |].
      assert (Hpos : count_occ string_dec
                 (map corev1.Name (SecretRefs (Spec mr))) name > 0) by lia.
      apply count_occ_In in Hpos. apply in_map_iff in Hpos.
      destruct Hpos as (ref & Hn & Hr). eauto.
    + intros (_ & (ref & Hr & Hn) & ->).
      assert (Hpos : count_occ string_dec
                 (map corev1.Name (SecretRefs (Spec mr))) name > 0).
      { apply count_occ_In. apply in_map_iff. eauto. }
      destruct (count_occ _ _ _); [lia | now left].
  - split; [intros [] |].
    intros (Hp & _). apply EvalGenericPredicate_true_iff in Hp. congruence.
Qed.

End MapperLoops.

(** [Map] on a Secret event whose listing succeeded. *)
Lemma Map_listed m secret l :
  client.List (client m) (client.InNamespace (secretNamespace secret)) = inr l ->
  Map m (secretEvent secret)
  = flat_map (requestsOf (predicates m) (secretName secret)) (Items l).
Proof.
  intros Hl. unfold Map, secretEvent; simpl.
  unfold secretNamespace in Hl. rewrite Hl.
  now rewrite outer_loop.
Qed.

(** The sample cluster: mr1 and mr2 reference s1 in its namespace, mr2
    twice; mr3 lives elsewhere; mr4 references another Secret. *)
Example Map_sample :
  Map (SecretToManagedResourceMapper (client.fake sample.cluster None) [])
      (secretEvent sample.s1)
  = [requestFor sample.mr1; requestFor sample.mr2; requestFor sample.mr2].
Proof. reflexivity. Qed.

Example Map_sample_filtered :
  Map (SecretToManagedResourceMapper (client.fake sample.cluster None)
         [sample.changedSinceCreation])
      (secretEvent sample.s1)
  = [requestFor sample.mr2; requestFor sample.mr2].
Proof. reflexivity. Qed.

Example Map_sample_not_a_secret :
  Map (SecretToManagedResourceMapper (client.fake sample.cluster None) [])
      {| handler.Object := Some (runtime.ManagedResource sample.mr1) |}
  = [].
Proof. reflexivity. Qed.

(** Every request of a Secret event names the Secret's namespace when the
    client serves listings by namespace. *)
Lemma listed_in_namespace c cluster secret l mr :
  client.Serves c cluster ->
  secretNamespace secret <> "" ->
  client.List c (client.InNamespace (secretNamespace secret)) = inr l ->
  (In mr (Items l) <-> In mr cluster /\ sameNamespace mr secret).
Proof.
  intros Hserves Hns Hl. rewrite (Hserves _ _ Hl mr).
  unfold client.inNamespace, sameNamespace; simpl.
  destruct (String.eqb_spec (secretNamespace secret) "") as [E | _];
    [contradiction |].
  now rewrite String.eqb_eq.
Qed.

Lemma fake_Serves cluster unavailable :
  client.Serves (client.fake cluster unavailable) cluster.
Proof.
  intros opts l. unfold client.fake; simpl.
  destruct unavailable; [discriminate |].
  intros [= <-] mr. simpl. apply filter_In.
Qed.

(* ------------------------------------------------------------------ *)
(** ** The mapper: what [Map] returns                                   *)
(* ------------------------------------------------------------------ *)

(** C8. [Map] is a total function that gives its caller no error: for a nil
    event object, for an object that is not a Secret, and for a Secret
    whose listing of ManagedResources fails, it returns the empty request
    list, so a listing error is swallowed. *)
Theorem Map_swallows_failures m obj :
  handler.Object obj = None \/
  (exists object, handler.Object obj = Some object /\
                  forall secret, object <> runtime.Secret secret) \/
  (exists secret err,
      handler.Object obj = Some (runtime.Secret secret) /\
      client.List (client m) (client.InNamespace (secretNamespace secret))
        = inl err) ->
  Map m obj = [].
Proof.
  unfold Map.
  intros [Hnil | [(object & Hobj & Hkind) | (secret & err & Hobj & Hlist)]].
  - now rewrite Hnil.
  - rewrite Hobj. destruct object as [secret | mr | kind]; trivial.
    now destruct (Hkind secret).
  - rewrite Hobj. unfold secretNamespace in Hlist. now rewrite Hlist.
Qed.

Lemma Map_swallows_failures_witness :
  Map (SecretToManagedResourceMapper
         (client.fake sample.cluster (Some sample.apiDown)) [])
      (secretEvent sample.s1) = [].
Proof.
  apply Map_swallows_failures. right. right.
  exists sample.s1, sample.apiDown. split; reflexivity.
Defined.

(** C4. On a Secret event, every request that [Map] emits comes from a
    ManagedResource of the listing of the Secret's namespace that passes
    every predicate of the mapper's predicate set; a listed
    ManagedResource that fails some predicate is skipped whatever its
    secret references are: the result is the same as if it had not been
    listed. *)
Theorem Map_filters_by_predicates m secret l :
  client.List (client m) (client.InNamespace (secretNamespace secret)) = inr l ->
  (forall r, In r (Map m (secretEvent secret)) ->
     exists mr, In mr (Items l) /\ passes mr (predicates m) /\
                r = requestFor mr) /\
  (forall before mr after c',
     Items l = before ++ mr :: after ->
     (exists p, In p (predicates m) /\
        predicate.Generic p {| event.Object := runtime.ManagedResource mr |}
          = false) ->
     client.List c' (client.InNamespace (secretNamespace secret))
       = inr {| Items := before ++ after |} ->
     Map m (secretEvent secret)
     = Map {| client := c'; predicates := predicates m |}
           (secretEvent secret)).
Proof.
  intros Hl. rewrite (Map_listed _ _ _ Hl). split.
  - intros r Hr. apply in_flat_map in Hr. destruct Hr as (mr & Hmr & Hr).
    apply In_requestsOf in Hr. destruct Hr as (Hp & _ & ->). eauto.
  - intros before mr after c' Hitems Hfail Hl'.
    rewrite (Map_listed {| client := c'; predicates := predicates m |}
               secret _ Hl').
    simpl. rewrite Hitems, !flat_map_app. simpl.
    apply EvalGenericPredicate_false_iff in Hfail.
    unfold requestsOf at 2. now rewrite Hfail.
Qed.

Lemma Map_filters_by_predicates_witness :
  let m := SecretToManagedResourceMapper
             (client.fake sample.cluster None) [sample.changedSinceCreation] in
  (forall r, In r (Map m (secretEvent sample.s1)) ->
     exists mr, In mr [sample.mr1; sample.mr2; sample.mr4] /\
                passes mr (predicates m) /\ r = requestFor mr) /\
  Map m (secretEvent sample.s1)
  = Map (SecretToManagedResourceMapper
           (client.fake [sample.mr2; sample.mr4] None)
           [sample.changedSinceCreation])
        (secretEvent sample.s1).
Proof.
  intros m.
  pose proof (Map_filters_by_predicates m sample.s1
                {| Items := [sample.mr1; sample.mr2; sample.mr4] |}
                eq_refl) as [Honly Hskip].
  split; [exact Honly |].
  apply (Hskip [] sample.mr1 [sample.mr2; sample.mr4]
           (client.fake [sample.mr2; sample.mr4] None)).
  - reflexivity.
  - exists sample.changedSinceCreation. split; [now left | reflexivity].
  - reflexivity.
Defined.

(** Counting the requests for one identity. *)
Lemma count_requestsOf_self predicates name mr :
  passes mr predicates ->
  count_occ reconcile.Request_eq_dec (requestsOf predicates name mr)
    (requestFor mr)
  = referenceCount mr name.
Proof.
  intros Hp. apply EvalGenericPredicate_true_iff in Hp.
  unfold requestsOf. rewrite Hp.
  now apply count_occ_repeat_eq.
Qed.

Lemma count_requestsOf_other predicates name mr r :
  requestFor mr <> r ->
  count_occ reconcile.Request_eq_dec (requestsOf predicates name mr) r = 0.
Proof.
  intros Hne. apply count_occ_not_In. intros Hin.
  apply In_requestsOf in Hin. destruct Hin as (_ & _ & ->). now apply Hne.
Qed.

Lemma count_flat_map_others predicates name r items :
  ~ In r (map requestFor items) ->
  count_occ reconcile.Request_eq_dec
    (flat_map (requestsOf predicates name) items) r = 0.
Proof.
  induction items as [| mr items IH]; simpl; trivial.
  intros Hnot. rewrite count_occ_app, IH by tauto.
  rewrite count_requestsOf_other by tauto. reflexivity.
Qed.

(** C9. [Map] emits one request per matching secret reference, not one per
    matching ManagedResource: a listed ManagedResource that passes the
    predicates and names the changed Secret k times in [spec.secretRefs]
    has k copies of its request in the returned slice (at least k in
    general, exactly k when the listed objects have distinct identities,
    as objects of one cluster do). *)
Theorem Map_one_request_per_reference m secret l mr :
  client.List (client m) (client.InNamespace (secretNamespace secret)) = inr l ->
  In mr (Items l) ->
  passes mr (predicates m) ->
  referenceCount mr (secretName secret)
    <= count_occ reconcile.Request_eq_dec (Map m (secretEvent secret))
         (requestFor mr) /\
  (NoDup (map requestFor (Items l)) ->
   count_occ reconcile.Request_eq_dec (Map m (secretEvent secret))
     (requestFor mr)
   = referenceCount mr (secretName secret)).
Proof.
  intros Hl Hin Hp. rewrite (Map_listed _ _ _ Hl).
  destruct (in_split _ _ Hin) as (before & after & ->).
  rewrite flat_map_app, count_occ_app. simpl.
  rewrite count_occ_app, count_requestsOf_self by assumption.
  split; [lia |].
  rewrite map_app. simpl. intros Hnodup.
  apply NoDup_remove_2 in Hnodup. rewrite in_app_iff in Hnodup.
  rewrite !count_flat_map_others by tauto. lia.
Qed.

Lemma Map_one_request_per_reference_witness :
  count_occ reconcile.Request_eq_dec
    (Map (SecretToManagedResourceMapper (client.fake sample.cluster None) [])
         (secretEvent sample.s1))
    (requestFor sample.mr2) = 2.
Proof.
  refine (proj2 (Map_one_request_per_reference
            (SecretToManagedResourceMapper
               (client.fake sample.cluster None) [])
            sample.s1
            {| Items := [sample.mr1; sample.mr2; sample.mr4] |}
            sample.mr2 eq_refl _ _) _).
  - simpl. tauto.
  - intros p [].
  - simpl. repeat constructor; simpl; intuition discriminate.
Defined.

(** C1, refuted as worded. A mapper whose predicate set rejects mr1 returns
    no request for it although mr1 lives in the Secret's namespace and
    references the Secret; and the mapper the binary registers, with no
    predicates, returns nothing at all when the listing fails. *)
Lemma Map_not_exactly_referencing :
  ~ ReturnsExactlyReferencing
      (SecretToManagedResourceMapper (client.fake sample.cluster None)
         [sample.changedSinceCreation])
      sample.cluster sample.s1 /\
  ~ ReturnsExactlyReferencing
      (SecretToManagedResourceMapper
         (client.fake sample.cluster (Some sample.apiDown)) [])
      sample.cluster sample.s1.
Proof.
  assert (Hrhs : exists mr, In mr sample.cluster /\
            sameNamespace mr sample.s1 /\
            references mr (secretName sample.s1) /\
            requestFor sample.mr1 = requestFor mr).
  { exists sample.mr1. repeat split; [now left |].
    exists {| corev1.Name := "s1" |}. split; [now left | reflexivity]. }
  split; intros H; apply (H (requestFor sample.mr1)) in Hrhs;
    vm_compute in Hrhs; intuition discriminate.
Qed.

(** C1, as the code has it. For a Secret (of some namespace) whose listing
    succeeds, against a client that serves the cluster, [Map] returns
    exactly the requests of the ManagedResources that live in the Secret's
    namespace, pass every predicate of the mapper's predicate set and have
    a reference with the Secret's name in [spec.secretRefs]; every request
    carries the Secret's namespace, so no ManagedResource of another
    namespace and none without such a reference yields a request. *)
Theorem Map_exactly_passing_and_referencing m cluster secret l :
  client.Serves (client m) cluster ->
  secretNamespace secret <> "" ->
  client.List (client m) (client.InNamespace (secretNamespace secret)) = inr l ->
  forall r,
    (In r (Map m (secretEvent secret)) <->
     exists mr, In mr cluster /\ sameNamespace mr secret /\
                passes mr (predicates m) /\
                references mr (secretName secret) /\ r = requestFor mr) /\
    (In r (Map m (secretEvent secret)) ->
     types.Namespace (reconcile.NamespacedName r) = secretNamespace secret).
Proof.
  intros Hserves Hns Hl r. rewrite (Map_listed _ _ _ Hl).
  assert (Hiff : In r (flat_map (requestsOf (predicates m) (secretName secret))
                         (Items l)) <->
                 exists mr, In mr cluster /\ sameNamespace mr secret /\
                   passes mr (predicates m) /\
                   references mr (secretName secret) /\ r = requestFor mr).
  { rewrite in_flat_map. split.
    - intros (mr & Hin & Hr). apply In_requestsOf in Hr.
      apply (listed_in_namespace _ _ _ _ _ Hserves Hns Hl) in Hin.
      exists mr. tauto.
    - intros (mr & Hin & Hsame & Hp & Href & ->). exists mr. split.
      + apply (listed_in_namespace _ _ _ _ _ Hserves Hns Hl). tauto.
      + apply In_requestsOf. tauto. }
  split; [exact Hiff |].
  intros Hin. apply Hiff in Hin. destruct Hin as (mr & _ & Hsame & _ & _ & ->).
  exact Hsame.
Qed.

Lemma Map_exactly_passing_and_referencing_witness :
  In (requestFor sample.mr2)
     (Map (SecretToManagedResourceMapper (client.fake sample.cluster None)
             [sample.changedSinceCreation])
          (secretEvent sample.s1)) <->
  exists mr, In mr sample.cluster /\ sameNamespace mr sample.s1 /\
             passes mr [sample.changedSinceCreation] /\
             references mr "s1" /\ requestFor sample.mr2 = requestFor mr.
Proof.
  refine (proj1 (Map_exactly_passing_and_referencing
            (SecretToManagedResourceMapper (client.fake sample.cluster None)
               [sample.changedSinceCreation])
            sample.cluster sample.s1
            {| Items := [sample.mr1; sample.mr2; sample.mr4] |}
            _ _ eq_refl (requestFor sample.mr2))).
  - apply fake_Serves.
  - discriminate.
Defined.

(* ------------------------------------------------------------------ *)
(** ** The app package: credentials of the target cluster               *)
(* ------------------------------------------------------------------ *)

Lemma not_given s : (0 <? String.length s) = false <-> s = "".
Proof. destruct s; simpl; split; intros H; trivial; discriminate. Qed.

Lemma given s : (0 <? String.length s) = true <-> s <> "".
Proof. destruct s; simpl; split; intros H; trivial; try discriminate.
  now destruct H. Qed.

Lemma isError_inl {A : Type} (err : error) : isError (@inl error A err).
Proof. now exists err. Qed.

Lemma isError_inr {A : Type} (a : A) : ~ isError (@inr error A a).
Proof. intros (err & H). discriminate. Qed.

#[local] Hint Resolve isError_inl : core.

(** Unfolds [getTargetConfig] down to the answers of the world. *)
Ltac unfold_config :=
  unfold app.getTargetConfig, bind, ret, os_Getenv, rest_InClusterConfig,
    user_Current, clientcmd_BuildConfigFromFlags, call, trace, result.

(** Splits on whether a string was given. *)
Ltac by_given s :=
  let E := fresh "E" in
  destruct (0 <? String.length s) eqn:E;
  [apply given in E | apply not_given in E].

(** Closes the side conditions of a case of [getTargetConfig]: splits
    conjunctions, introduces, and discards impossible memberships and
    equations. *)
Ltac settle :=
  repeat match goal with
  | |- _ /\ _ => split
  | |- _ -> _ => intro
  | |- forall _, _ => intro
  | H : _ \/ _ |- _ => destruct H
  | H : False |- _ => destruct H
  | H : isError (inr _) |- _ => apply isError_inr in H; destruct H
  | H : ?x <> ?x |- _ => destruct (H eq_refl)
  | H : _ = _ |- _ => discriminate H
  end;
  subst; try congruence; auto.

(** The run with an explicit path. *)
Lemma getTargetConfig_path w kubeconfigPath :
  kubeconfigPath <> "" ->
  app.getTargetConfig w kubeconfigPath
  = ([BuildConfigFromFlags "" kubeconfigPath], kubeconfigFile w kubeconfigPath).
Proof.
  intros H. apply given in H. unfold_config. now rewrite H.
Qed.

(** The run without a path, with KUBECONFIG set. *)
Lemma getTargetConfig_env w :
  environ w "KUBECONFIG" <> "" ->
  app.getTargetConfig w ""
  = ([Getenv "KUBECONFIG";
      BuildConfigFromFlags "" (environ w "KUBECONFIG")],
     kubeconfigFile w (environ w "KUBECONFIG")).
Proof.
  intros H. apply given in H. unfold_config. simpl. now rewrite H.
Qed.

(** The run with neither: in-cluster first, the home kubeconfig last. *)
Lemma getTargetConfig_fallback w :
  environ w "KUBECONFIG" = "" ->
  app.getTargetConfig w ""
  = match inCluster w with
    | inr c => ([Getenv "KUBECONFIG"; InClusterConfig], inr c)
    | inl _ =>
        match currentUser w with
        | inr usr =>
            ([Getenv "KUBECONFIG"; InClusterConfig; UserCurrent;
              BuildConfigFromFlags ""
                (filepath_Join w [user.HomeDir usr; ".kube"; "config"])],
             match kubeconfigFile w
                     (filepath_Join w [user.HomeDir usr; ".kube"; "config"])
             with
             | inr c => inr c
             | inl _ =>
                 inl (fmt_Errorf "could not create config for cluster")
             end)
        | inl _ =>
            ([Getenv "KUBECONFIG"; InClusterConfig; UserCurrent],
             inl (fmt_Errorf "could not create config for cluster"))
        end
    end.
Proof.
  intros H. apply not_given in H. unfold_config. simpl. rewrite H.
  destruct (inCluster w); [| reflexivity].
  destruct (currentUser w); [reflexivity |].
  now destruct (kubeconfigFile w _).
Qed.

(** C2, refuted as worded. With no explicit path, KUBECONFIG naming a valid
    file and an in-cluster configuration available, the code returns the
    configuration of the KUBECONFIG file and never asks for the in-cluster
    one: the environment variable comes before the in-cluster
    configuration, not after it. *)
Lemma getTargetConfig_not_claimed_order :
  ~ ClaimedOrder
      (sample.world (sample.envKubeconfig "/etc/a") sample.files
         (inr sample.kubeconfigB))
      "".
Proof.
  intros [Hfirst _].
  specialize (Hfirst eq_refl sample.kubeconfigB eq_refl).
  vm_compute in Hfirst. discriminate.
Qed.

(** C2, as the code has it. [getTargetConfig] tries the explicit kubeconfig
    path first, then the KUBECONFIG environment variable, then the
    in-cluster configuration, then the kubeconfig in the home directory;
    a later source is consulted only if every earlier one is unavailable
    (no path given, variable empty, in-cluster configuration failing). *)
Theorem getTargetConfig_order w kubeconfigPath :
  (kubeconfigPath <> "" ->
   trace (app.getTargetConfig w kubeconfigPath)
     = [BuildConfigFromFlags "" kubeconfigPath] /\
   result (app.getTargetConfig w kubeconfigPath)
     = kubeconfigFile w kubeconfigPath) /\
  (kubeconfigPath = "" -> environ w "KUBECONFIG" <> "" ->
   trace (app.getTargetConfig w kubeconfigPath)
     = [Getenv "KUBECONFIG";
        BuildConfigFromFlags "" (environ w "KUBECONFIG")] /\
   result (app.getTargetConfig w kubeconfigPath)
     = kubeconfigFile w (environ w "KUBECONFIG")) /\
  (kubeconfigPath = "" -> environ w "KUBECONFIG" = "" ->
   forall c, inCluster w = inr c ->
   trace (app.getTargetConfig w kubeconfigPath)
     = [Getenv "KUBECONFIG"; InClusterConfig] /\
   result (app.getTargetConfig w kubeconfigPath) = inr c) /\
  (kubeconfigPath = "" -> environ w "KUBECONFIG" = "" ->
   isError (inCluster w) ->
   (exists rest,
      trace (app.getTargetConfig w kubeconfigPath)
        = [Getenv "KUBECONFIG"; InClusterConfig; UserCurrent] ++ rest) /\
   (forall c, sourceConfig w kubeconfigPath HomeFile = inr c ->
      result (app.getTargetConfig w kubeconfigPath) = inr c) /\
   (isError (sourceConfig w kubeconfigPath HomeFile) ->
      isError (result (app.getTargetConfig w kubeconfigPath)))) /\
  (In (Getenv "KUBECONFIG") (trace (app.getTargetConfig w kubeconfigPath)) ->
   kubeconfigPath = "") /\
  (In InClusterConfig (trace (app.getTargetConfig w kubeconfigPath)) ->
   kubeconfigPath = "" /\ environ w "KUBECONFIG" = "") /\
  (In UserCurrent (trace (app.getTargetConfig w kubeconfigPath)) ->
   kubeconfigPath = "" /\ environ w "KUBECONFIG" = "" /\
   isError (inCluster w)).
Proof.
  by_given kubeconfigPath.
  - (* a path is given *)
    rewrite (getTargetConfig_path w _ E). unfold trace, result; simpl.
    settle.
  - subst kubeconfigPath. by_given (environ w "KUBECONFIG").
    + (* KUBECONFIG is set *)
      rewrite (getTargetConfig_env w E). unfold trace, result; simpl.
      settle.
    + (* neither: in-cluster, then home *)
      rewrite (getTargetConfig_fallback w E). unfold sourceConfig.
      destruct (inCluster w) as [err | c] eqn:Hin;
        [destruct (currentUser w) as [err' | usr] |];
        unfold trace, result; simpl; settle.
      * exists []. reflexivity.
      * eexists. reflexivity.
      * match goal with H : kubeconfigFile _ _ = inr _ |- _ => now rewrite H end.
      * match goal with H : isError (kubeconfigFile _ _) |- _ =>
          destruct H as (e & ->) end.
        auto.
Qed.

Lemma getTargetConfig_order_witness :
  result (app.getTargetConfig
            (sample.world sample.noEnv sample.files (inr sample.kubeconfigB))
            "/etc/a") = inr sample.kubeconfigA /\
  result (app.getTargetConfig
            (sample.world (sample.envKubeconfig "/etc/b") sample.files
               (inr sample.kubeconfigA))
            "") = inr sample.kubeconfigB /\
  result (app.getTargetConfig
            (sample.world sample.noEnv sample.files (inr sample.kubeconfigB))
            "") = inr sample.kubeconfigB /\
  result (app.getTargetConfig
            (sample.world sample.noEnv sample.files (inl sample.notInCluster))
            "") = inr sample.kubeconfigC.
Proof.
  split; [| split; [| split]].
  - apply (proj1 (getTargetConfig_order
             (sample.world sample.noEnv sample.files (inr sample.kubeconfigB))
             "/etc/a")).
    discriminate.
  - apply (proj1 (proj2 (getTargetConfig_order
             (sample.world (sample.envKubeconfig "/etc/b") sample.files
                (inr sample.kubeconfigA))
             "")));
      [reflexivity | discriminate].
  - apply (proj1 (proj2 (proj2 (getTargetConfig_order
             (sample.world sample.noEnv sample.files (inr sample.kubeconfigB))
             ""))));
      reflexivity.
  - apply (proj1 (proj2 (proj2 (proj2 (getTargetConfig_order
             (sample.world sample.noEnv sample.files (inl sample.notInCluster))
             "")))));
      [reflexivity | reflexivity | now exists sample.notInCluster | reflexivity].
Defined.

(** C5, refuted as worded. With an explicit path to a file that does not
    exist and an in-cluster configuration available, [getTargetConfig]
    returns the error of the path although not every source of the chain
    fails; the same happens without a path when KUBECONFIG names a file
    that does not exist. *)
Lemma getTargetConfig_error_not_iff_all_fail :
  ~ ErrorIffEverySourceFails
      (sample.world sample.noEnv sample.files (inr sample.kubeconfigB))
      "/etc/missing" /\
  ~ ErrorIffEverySourceFails
      (sample.world (sample.envKubeconfig "/etc/missing") sample.files
         (inr sample.kubeconfigB))
      "".
Proof.
  split; intros [Honly _];
    apply (isError_inr sample.kubeconfigB);
    apply (fun H => Honly H InClusterSource);
    now exists sample.noSuchFile.
Qed.

(** C5, as the code has it. [getTargetConfig] returns an error if and only
    if the sources it consults fail: the file of a non-empty kubeconfig
    path; with an empty path, the file of a non-empty KUBECONFIG variable;
    with both empty, the in-cluster configuration and the home kubeconfig
    together. The result (configuration or error) of a non-empty path is
    returned immediately and no other source is consulted. When every
    source fails the result is an error, and [getTargetClient] hands that
    error on. *)
Theorem getTargetConfig_error_iff w kubeconfigPath :
  (isError (result (app.getTargetConfig w kubeconfigPath)) <->
   (kubeconfigPath <> "" /\ isError (kubeconfigFile w kubeconfigPath)) \/
   (kubeconfigPath = "" /\ environ w "KUBECONFIG" <> "" /\
    isError (kubeconfigFile w (environ w "KUBECONFIG"))) \/
   (kubeconfigPath = "" /\ environ w "KUBECONFIG" = "" /\
    isError (inCluster w) /\
    isError (sourceConfig w kubeconfigPath HomeFile))) /\
  (kubeconfigPath <> "" ->
   app.getTargetConfig w kubeconfigPath
   = ([BuildConfigFromFlags "" kubeconfigPath],
      kubeconfigFile w kubeconfigPath)) /\
  ((forall s, isError (sourceConfig w kubeconfigPath s)) ->
   isError (result (app.getTargetConfig w kubeconfigPath))) /\
  (forall err,
     result (app.getTargetConfig w kubeconfigPath) = inl err ->
     result (app.getTargetClient w kubeconfigPath) = inl err).
Proof.
  assert (Hiff :
    isError (result (app.getTargetConfig w kubeconfigPath)) <->
    (kubeconfigPath <> "" /\ isError (kubeconfigFile w kubeconfigPath)) \/
    (kubeconfigPath = "" /\ environ w "KUBECONFIG" <> "" /\
     isError (kubeconfigFile w (environ w "KUBECONFIG"))) \/
    (kubeconfigPath = "" /\ environ w "KUBECONFIG" = "" /\
     isError (inCluster w) /\
     isError (sourceConfig w kubeconfigPath HomeFile))).
  { by_given kubeconfigPath.
    - rewrite (getTargetConfig_path w _ E). unfold result; simpl. tauto.
    - subst. by_given (environ w "KUBECONFIG").
      + rewrite (getTargetConfig_env w E). unfold result; simpl. tauto.
      + rewrite (getTargetConfig_fallback w E). unfold sourceConfig.
        destruct (inCluster w) as [err | c];
          [destruct (currentUser w) as [err' | usr];
           [| destruct (kubeconfigFile w _) as [err' | c] ] |];
          unfold result; simpl; split; intros H; auto 7;
          try (apply isError_inr in H; destruct H);
          destruct H as [? | [? | (_ & _ & Hc & Hh)]]; try tauto;
          try (now apply isError_inr in Hc); now apply isError_inr in Hh. }
  split; [exact Hiff |].
  split; [apply getTargetConfig_path |].
  split.
  - intros Hall. apply Hiff.
    pose proof (Hall FlagPath) as Hflag. pose proof (Hall EnvVar) as Henv.
    unfold sourceConfig in Hflag, Henv.
    revert Hflag. by_given kubeconfigPath; intros Hflag; [left; tauto |].
    right. revert Henv. by_given (environ w "KUBECONFIG"); intros Henv.
    + left. tauto.
    + right. split; [assumption |]. split; [assumption |].
      split; [exact (Hall InClusterSource) | exact (Hall HomeFile)].
  - intros err Herr. unfold app.getTargetClient.
    destruct (app.getTargetConfig w kubeconfigPath) as [t r].
    unfold result in Herr; simpl in Herr. subst r. reflexivity.
Qed.

Lemma getTargetConfig_error_iff_witness :
  app.getTargetConfig
    (sample.world sample.noEnv sample.files (inr sample.kubeconfigB))
    "/etc/missing"
  = ([BuildConfigFromFlags "" "/etc/missing"], inl sample.noSuchFile) /\
  isError (result (app.getTargetConfig
                     (sample.world sample.noEnv sample.noFiles
                        (inl sample.notInCluster))
                     "")).
Proof.
  split.
  - apply (proj1 (proj2 (getTargetConfig_error_iff
             (sample.world sample.noEnv sample.files (inr sample.kubeconfigB))
             "/etc/missing"))).
    discriminate.
  - apply (proj1 (proj2 (proj2 (getTargetConfig_error_iff
             (sample.world sample.noEnv sample.noFiles
                (inl sample.notInCluster))
             "")))).
    intros []; vm_compute; eexists; reflexivity.
Defined.

(* ------------------------------------------------------------------ *)
(** ** The app package: the calls of a run                              *)
(* ------------------------------------------------------------------ *)

Lemma trace_bind {A B : Type} (c : M A) (k : A -> M B) :
  trace (bind c k) = trace c ++ trace (k (result c)).
Proof.
  unfold trace, result, bind. destruct c as [t a]; simpl.
  now destruct (k a).
Qed.

Lemma result_bind {A B : Type} (c : M A) (k : A -> M B) :
  result (bind c k) = result (k (result c)).
Proof.
  unfold result, bind. destruct c as [t a]; simpl.
  now destruct (k a).
Qed.

(** [getTargetConfig] only reads the environment, kubeconfig files, the
    in-cluster configuration and the current user. *)
Lemma getTargetConfig_calls w kubeconfigPath call :
  In call (trace (app.getTargetConfig w kubeconfigPath)) ->
  match call with
  | Getenv _ | BuildConfigFromFlags _ _ | InClusterConfig | UserCurrent => True
  | _ => False
  end.
Proof.
  by_given kubeconfigPath.
  - rewrite (getTargetConfig_path w _ E). unfold trace; simpl.
    intros [<- | []]. exact I.
  - subst. by_given (environ w "KUBECONFIG").
    + rewrite (getTargetConfig_env w E). unfold trace; simpl.
      intros [<- | [<- | []]]; exact I.
    + rewrite (getTargetConfig_fallback w E).
      destruct (inCluster w); [destruct (currentUser w) |];
        unfold trace; simpl; intuition (subst; exact I).
Qed.

(** Besides those, [getTargetClient] makes at most one call: it creates the
    client from the configuration found, with the rate limits replaced. *)
Lemma getTargetClient_calls w kubeconfigPath call :
  In call (trace (app.getTargetClient w kubeconfigPath)) ->
  In call (trace (app.getTargetConfig w kubeconfigPath)) \/
  exists targetConfig,
    result (app.getTargetConfig w kubeconfigPath) = inr targetConfig /\
    call = ClientNew {| rest.Host := rest.Host targetConfig;
                        rest.QPS := 100.0%Q;
                        rest.Burst := 130%Z |}.
Proof.
  unfold app.getTargetClient. rewrite trace_bind, in_app_iff.
  intros [H | H]; [now left |].
  destruct (result (app.getTargetConfig w kubeconfigPath)) as [err | c].
  - destruct H.
  - right. exists c. destruct H as [<- | []]. now split.
Qed.

Lemma getTargetClient_creates w kubeconfigPath targetConfig :
  result (app.getTargetConfig w kubeconfigPath) = inr targetConfig ->
  In (ClientNew {| rest.Host := rest.Host targetConfig;
                   rest.QPS := 100.0%Q;
                   rest.Burst := 130%Z |})
     (trace (app.getTargetClient w kubeconfigPath)).
Proof.
  intros H. unfold app.getTargetClient. rewrite trace_bind, in_app_iff, H.
  right. now left.
Qed.

(** Goes through the calls of an explicit trace. *)
Ltac in_calls H :=
  repeat (simpl in H;
          match type of H with
          | _ \/ _ => destruct H as [H | H]
          | In _ (_ ++ _) => apply in_app_or in H
          | False => destruct H
          end);
  subst; eauto 12.

(** The calls of [Run], whatever the world answers. *)
Lemma Run_calls g w v c :
  In c (trace (app.Run g w v)) ->
  c = GetConfigOrDie \/ c = Exit 1 \/ c = AddToScheme \/
  c = Start \/
  (exists config, defaultConfig w = inr config /\
     c = ManagerNew config (app.managerOptions v)) \/
  In c (trace (app.getTargetClient w (app.targetKubeconfigPath v))) \/
  (exists mgr targetClient,
     c = ControllerNew "resource-controller"
              (app.controllerOptions v mgr targetClient)) \/
  c = Watch source.ManagedResource eventhandler.EnqueueRequestForObject [g] \/
  (exists mgr,
     c = Watch source.Secret
              (eventhandler.EnqueueRequestsFromMapFunc
                 (SecretToManagedResourceMapper (manager.GetClient mgr) []))
              []).
Proof.
  unfold app.Run, app.config_GetConfigOrDie, manager_New, controller_New,
    controller_Watch, manager_Start, os_Exit, call.
  repeat (rewrite trace_bind, ?result_bind; unfold trace at 1, result at 1;
          simpl).
  destruct (defaultConfig w) as [err | config] eqn:Hconfig; simpl.
  - unfold trace; simpl. intros H. in_calls H.
  - destruct (newManager w config (app.managerOptions v)) as [err | mgr].
    { unfold trace; simpl. intros H. in_calls H. }
    destruct (app.getTargetClient w (app.targetKubeconfigPath v))
      as [t [err | targetClient]].
    { unfold bind, trace; simpl. intros H. in_calls H. }
    unfold bind; simpl.
    destruct (newControllerError w "resource-controller"
                (app.controllerOptions v mgr targetClient));
      [| destruct (watchError w source.ManagedResource);
         [| destruct (watchError w source.Secret);
            [| destruct (startError w)]]];
      unfold bind, ret, trace; simpl; intros H; in_calls H.
Qed.

(** A complete run in a world where everything succeeds, with the target
    kubeconfig given by flag. *)
Example Run_sample :
  trace (app.Run sample.changedSinceCreation
           (sample.world sample.noEnv sample.files (inl sample.notInCluster))
           (app.targetKubeconfigPath_ptr "/etc/a"
              (app.Vars app.NewControllerManagerCommand)))
  = [GetConfigOrDie;
     ManagerNew sample.kubeconfigC
       {| manager.LeaderElection := true;
          manager.LeaderElectionID := "gardener-resource-manager";
          manager.LeaderElectionNamespace := "";
          manager.SyncPeriod := Some 60000000000%Z;
          manager.Namespace := "" |};
     AddToScheme;
     BuildConfigFromFlags "" "/etc/a";
     ClientNew {| rest.Host := "https://a.example";
                  rest.QPS := 100.0%Q; rest.Burst := 130%Z |};
     ControllerNew "resource-controller"
       {| controller.MaxConcurrentReconciles := 10%Z;
          controller.Reconciler :=
            reconciler.NewReconciler (client.fake sample.cluster None)
              (client.fake [] None) |};
     Watch source.ManagedResource eventhandler.EnqueueRequestForObject
       [sample.changedSinceCreation];
     Watch source.Secret
       (eventhandler.EnqueueRequestsFromMapFunc
          (SecretToManagedResourceMapper (client.fake sample.cluster None) []))
       [];
     Start].
Proof. reflexivity. Qed.

(** The only client [Run] creates is the target client, from the
    configuration [getTargetConfig] found, with fixed rate limits. *)
Lemma Run_ClientNew g w v config :
  In (ClientNew config) (trace (app.Run g w v)) ->
  exists targetConfig,
    result (app.getTargetConfig w (app.targetKubeconfigPath v))
      = inr targetConfig /\
    config = {| rest.Host := rest.Host targetConfig;
                rest.QPS := 100.0%Q;
                rest.Burst := 130%Z |}.
Proof.
  intros H. apply Run_calls in H.
  destruct H as [H | [H | [H | [H | [H | [H | [H | [H | H]]]]]]]];
    try discriminate H.
  - destruct H as (? & _ & H). discriminate H.
  - apply getTargetClient_calls in H.
    destruct H as [H | (targetConfig & Hres & [= ->])].
    + apply getTargetConfig_calls in H. destruct H.
    + now exists targetConfig.
  - destruct H as (? & ? & H). discriminate H.
  - destruct H as (? & H). discriminate H.
Qed.

(** The first two calls of a run whose source cluster is configured. *)
Lemma Run_starts_with_manager g w v config :
  defaultConfig w = inr config ->
  exists rest,
    trace (app.Run g w v)
    = GetConfigOrDie :: ManagerNew config (app.managerOptions v) :: rest.
Proof.
  intros H.
  assert (Hc : app.config_GetConfigOrDie w = ([GetConfigOrDie], Some config)).
  { unfold app.config_GetConfigOrDie, bind, call. now rewrite H. }
  unfold app.Run. rewrite trace_bind, Hc.
  unfold result at 1, trace at 1. cbn [fst snd app].
  rewrite trace_bind. unfold manager_New, call, trace at 1. cbn [fst snd app].
  eexists. reflexivity.
Qed.

(** Every run has one of the eight outcomes. *)
Lemma Run_outcome g w v :
  exists stage, RunOutcome g w v stage (trace (app.Run g w v)).
Proof.
  assert (Ht : app.getTargetClient w (app.targetKubeconfigPath v)
               = (trace (app.getTargetClient w (app.targetKubeconfigPath v)),
                  result (app.getTargetClient w (app.targetKubeconfigPath v))))
    by (now destruct (app.getTargetClient w (app.targetKubeconfigPath v))).
  unfold app.Run, app.config_GetConfigOrDie, manager_New, controller_New,
    controller_Watch, manager_Start, os_Exit, call.
  destruct (defaultConfig w) as [err | config] eqn:Hconfig.
  { exists AtConfig. exact (noConfig g w v err Hconfig). }
  unfold ret; simpl.
  destruct (newManager w config (app.managerOptions v)) as [err | mgr] eqn:Hmgr.
  { exists AtManager. exact (noManager g w v config err Hconfig Hmgr). }
  simpl. rewrite Ht.
  destruct (result (app.getTargetClient w (app.targetKubeconfigPath v)))
    as [err | targetClient] eqn:Htc.
  { exists AtTargetClient.
    exact (noTargetClient g w v config mgr err Hconfig Hmgr Htc). }
  unfold bind; simpl.
  destruct (newControllerError w "resource-controller"
              (app.controllerOptions v mgr targetClient)) as [err |] eqn:Hc.
  { exists AtController.
    exact (noController g w v config mgr targetClient err Hconfig Hmgr Htc Hc). }
  destruct (watchError w source.ManagedResource) as [err |] eqn:Hw1.
  { exists AtManagedResourceWatch.
    exact (noManagedResourceWatch g w v config mgr targetClient err
             Hconfig Hmgr Htc Hc Hw1). }
  destruct (watchError w source.Secret) as [err |] eqn:Hw2.
  { exists AtSecretWatch.
    exact (noSecretWatch g w v config mgr targetClient err
             Hconfig Hmgr Htc Hc Hw1 Hw2). }
  destruct (startError w) as [err |] eqn:Hs.
  { exists AtStart.
    exact (startFailed g w v config mgr targetClient err
             Hconfig Hmgr Htc Hc Hw1 Hw2 Hs). }
  exists Done.
  exact (started g w v config mgr targetClient Hconfig Hmgr Htc Hc Hw1 Hw2 Hs).
Qed.

(** The calls made while the target client is created. *)
Lemma getTargetClient_call_kinds w kubeconfigPath c :
  In c (trace (app.getTargetClient w kubeconfigPath)) ->
  match c with
  | Getenv _ | BuildConfigFromFlags _ _ | InClusterConfig | UserCurrent
  | ClientNew _ => True
  | _ => False
  end.
Proof.
  intros H. apply getTargetClient_calls in H.
  destruct H as [H | (targetConfig & _ & ->)]; [| exact I].
  apply getTargetConfig_calls in H. now destruct c.
Qed.

(** Goes through the calls of an outcome of [Run]: each case is left with
    an equation for the call, or with the kind of a call made while the
    target client was created. *)
Ltac outcome_calls H :=
  unfold prelude, managedResourceWatch, secretWatch in H;
  repeat match type of H with
  | In _ (_ ++ _) => apply in_app_or in H; destruct H as [H | H]
  | In _ (_ :: _) => apply in_inv in H; destruct H as [H | H]
  | In _ [] => destruct H
  | In _ (trace (app.getTargetClient _ _)) =>
      apply getTargetClient_call_kinds in H; simpl in H
  end;
  try contradiction; try discriminate H.

(** Two sets of answers of the world describe the same run. *)
Ltac same_answers :=
  repeat match goal with
  | H : ?x = inr _, H' : ?x = inl _ |- _ => rewrite H in H'; discriminate H'
  | H : ?x = None, H' : ?x = Some _ |- _ => rewrite H in H'; discriminate H'
  | H : ?x = inr ?a, H' : ?x = inr ?b |- _ =>
      rewrite H in H'; injection H' as ?; subst
  end.

(** A run whose source configuration, manager and target client are
    there creates the controller. *)
Lemma Run_reaches_controller g w v config mgr targetClient :
  defaultConfig w = inr config ->
  newManager w config (app.managerOptions v) = inr mgr ->
  result (app.getTargetClient w (app.targetKubeconfigPath v))
    = inr targetClient ->
  In (ControllerNew "resource-controller"
        (app.controllerOptions v mgr targetClient))
     (trace (app.Run g w v)).
Proof.
  intros Hc Hm Ht. destruct (Run_outcome g w v) as (stage & Hout).
  destruct Hout; same_answers; apply in_or_app; right; now left.
Qed.



(* ------------------------------------------------------------------ *)
(** ** The app package: rate limits, flags and watches                  *)
(* ------------------------------------------------------------------ *)

(** C3, refuted as worded. Neither flags nor environment change the rate
    limits: no two runs create clients with different limits. For
    instance the kubeconfig files /etc/a (5 queries per second, burst 10)
    and /etc/b (50, burst 100) both lead to a client with 100 and 130. *)
Lemma rate_limits_not_configurable :
  ~ RateLimitsConfigurable /\
  trace (app.getTargetClient
           (sample.world sample.noEnv sample.files (inl sample.notInCluster))
           "/etc/a")
  = [BuildConfigFromFlags "" "/etc/a";
     ClientNew {| rest.Host := "https://a.example";
                  rest.QPS := 100.0%Q; rest.Burst := 130%Z |}] /\
  trace (app.getTargetClient
           (sample.world sample.noEnv sample.files (inl sample.notInCluster))
           "/etc/b")
  = [BuildConfigFromFlags "" "/etc/b";
     ClientNew {| rest.Host := "https://b.example";
                  rest.QPS := 100.0%Q; rest.Burst := 130%Z |}].
Proof.
  split; [| split; reflexivity].
  intros (g & w & v & w' & v' & config & config' & H & H' & Hdiff).
  apply Run_ClientNew in H, H'.
  destruct H as (c & _ & ->), H' as (c' & _ & ->). simpl in Hdiff.
  destruct Hdiff as [Hdiff | Hdiff]; now apply Hdiff.
Qed.

(** C3, as the code has it. The target-cluster client is created with
    client-side rate limits that are fixed in the code: whatever the flags
    and the world, every client a run creates has 100 queries per second
    and a burst of 130, and the configuration found by [getTargetConfig]
    keeps only its other fields. *)
Theorem target_client_rate_limits_fixed g w v :
  (forall config,
     In (ClientNew config) (trace (app.Run g w v)) ->
     rest.QPS config = 100.0%Q /\ rest.Burst config = 130%Z) /\
  (forall targetConfig,
     result (app.getTargetConfig w (app.targetKubeconfigPath v))
       = inr targetConfig ->
     In (ClientNew {| rest.Host := rest.Host targetConfig;
                      rest.QPS := 100.0%Q;
                      rest.Burst := 130%Z |})
        (trace (app.getTargetClient w (app.targetKubeconfigPath v)))).
Proof.
  split.
  - intros config H. apply Run_ClientNew in H.
    destruct H as (c & _ & ->). now split.
  - apply getTargetClient_creates.
Qed.

Lemma target_client_rate_limits_fixed_witness :
  In (ClientNew {| rest.Host := "https://a.example";
                   rest.QPS := 100.0%Q; rest.Burst := 130%Z |})
     (trace (app.getTargetClient
               (sample.world sample.noEnv sample.files
                  (inl sample.notInCluster))
               "/etc/a")).
Proof.
  apply (proj2 (target_client_rate_limits_fixed sample.acceptAll
                  (sample.world sample.noEnv sample.files
                     (inl sample.notInCluster))
                  (app.targetKubeconfigPath_ptr "/etc/a" app.zero))
               sample.kubeconfigA).
  reflexivity.
Defined.

(** C6. The command declares exactly six flags: leader-election and
    leader-election-namespace, sync-period, target-kubeconfig,
    max-concurrent-workers and namespace. Setting sync-period, namespace
    or max-concurrent-workers (to a value the parser accepts) writes the
    variable of that name. [Run] creates the manager whenever the source
    cluster is configured, and the controller whenever manager and target
    client are there; the manager gets the sync period and the namespace
    read from these variables, and the controller the
    max-concurrent-workers value as its bound on concurrent reconciles. *)
Theorem flags_reach_manager_and_controller :
  flagNames app.NewControllerManagerCommand
  = ["leader-election"; "leader-election-namespace"; "sync-period";
     "target-kubeconfig"; "max-concurrent-workers"; "namespace"] /\
  (forall cmd, app.Flags cmd = app.Flags app.NewControllerManagerCommand ->
     (forall d, app.inInt64 d = true -> exists cmd',
        app.Set_ cmd "sync-period" (app.durationArg d) = inr cmd' /\
        app.Flags cmd' = app.Flags cmd /\
        app.syncPeriod (app.Vars cmd') = d) /\
     (forall ns, exists cmd',
        app.Set_ cmd "namespace" (app.stringArg ns) = inr cmd' /\
        app.Flags cmd' = app.Flags cmd /\
        app.namespace (app.Vars cmd') = ns) /\
     (forall n, app.inInt64 n = true -> exists cmd',
        app.Set_ cmd "max-concurrent-workers" (app.intArg n) = inr cmd' /\
        app.Flags cmd' = app.Flags cmd /\
        app.maxConcurrentWorkers (app.Vars cmd') = n)) /\
  (forall g w v config,
     defaultConfig w = inr config ->
     exists options,
       In (ManagerNew config options) (trace (app.Run g w v)) /\
       manager.SyncPeriod options = Some (app.syncPeriod v) /\
       manager.Namespace options = app.namespace v) /\
  (forall g w v config mgr targetClient,
     defaultConfig w = inr config ->
     newManager w config (app.managerOptions v) = inr mgr ->
     result (app.getTargetClient w (app.targetKubeconfigPath v))
       = inr targetClient ->
     exists options,
       In (ControllerNew "resource-controller" options)
          (trace (app.Run g w v)) /\
       controller.MaxConcurrentReconciles options
       = app.maxConcurrentWorkers v) /\
  (forall g w v c,
     In c (trace (app.Run g w v)) ->
     match c with
     | ManagerNew _ options =>
         manager.SyncPeriod options = Some (app.syncPeriod v) /\
         manager.Namespace options = app.namespace v
     | ControllerNew _ options =>
         controller.MaxConcurrentReconciles options
         = app.maxConcurrentWorkers v
     | _ => True
     end).
Proof.
  split; [reflexivity |]. split; [| split; [| split]].
  - intros cmd Hflags. split; [| split].
    + intros d Hd. unfold app.Set_, app.Lookup. rewrite Hflags.
      cbn -[app.inInt64]. rewrite Hd. eexists.
      split; [reflexivity | split; reflexivity].
    + intros ns. unfold app.Set_, app.Lookup. rewrite Hflags. cbn.
      eexists. split; [reflexivity | split; reflexivity].
    + intros n Hn. unfold app.Set_, app.Lookup. rewrite Hflags.
      cbn -[app.inInt64]. rewrite Hn. eexists.
      split; [reflexivity | split; reflexivity].
  - intros g w v config H. exists (app.managerOptions v).
    destruct (Run_starts_with_manager g w v config H) as (rest & ->).
    split; [right; now left | now split].
  - intros g w v config mgr targetClient Hc Hm Ht.
    exists (app.controllerOptions v mgr targetClient).
    split; [now apply (Run_reaches_controller g w v config) | reflexivity].
  - intros g w v c H. destruct (Run_outcome g w v) as (stage & Hout).
    destruct c; trivial;
      destruct Hout; outcome_calls H; injection H as <- <-;
      try reflexivity; now split.
Qed.

Lemma flags_reach_manager_and_controller_witness :
  exists cmd,
    app.Parse app.NewControllerManagerCommand
      [("sync-period", app.durationArg (5 * time.Minute)%Z);
       ("namespace", app.stringArg "garden");
       ("max-concurrent-workers", app.intArg 3%Z)]
    = inr cmd /\
    (exists options,
       In (ManagerNew sample.kubeconfigC options)
          (trace (app.Run sample.acceptAll
                    (sample.world sample.noEnv sample.files
                       (inl sample.notInCluster))
                    (app.Vars cmd))) /\
       manager.SyncPeriod options = Some (5 * time.Minute)%Z /\
       manager.Namespace options = "garden") /\
    (exists options,
       In (ControllerNew "resource-controller" options)
          (trace (app.Run sample.acceptAll
                    (sample.world sample.noEnv sample.files
                       (inl sample.notInCluster))
                    (app.Vars cmd))) /\
       controller.MaxConcurrentReconciles options = 3%Z).
Proof.
  eexists. split; [reflexivity |]. split.
  - match goal with
    | |- exists _, In _ (trace (app.Run _ _ ?v)) /\ _ =>
        exact (proj1 (proj2 (proj2 flags_reach_manager_and_controller))
                 sample.acceptAll
                 (sample.world sample.noEnv sample.files
                    (inl sample.notInCluster))
                 v sample.kubeconfigC eq_refl)
    end.
  - match goal with
    | |- exists _, In _ (trace (app.Run _ _ ?v)) /\ _ =>
        exact (proj1 (proj2 (proj2 (proj2 flags_reach_manager_and_controller)))
                 sample.acceptAll
                 (sample.world sample.noEnv sample.files
                    (inl sample.notInCluster))
                 v sample.kubeconfigC
                 {| manager.GetClient := client.fake sample.cluster None |}
                 (client.fake [] None)
                 eq_refl eq_refl eq_refl)
    end.
Defined.

(** The parser rejects a worker count that does not fit 64 bits. *)
Example Set_rejects_out_of_range :
  app.Set_ app.NewControllerManagerCommand "max-concurrent-workers"
    (app.intArg 9223372036854775808%Z)
  = inl (errorString "value out of range").
Proof. reflexivity. Qed.



(* ------------------------------------------------------------------ *)
(** ** The mapper: further properties                                   *)
(* ------------------------------------------------------------------ *)

Lemma EvalGenericPredicate_app obj ps qs :
  extensionscontroller.EvalGenericPredicate obj (ps ++ qs)
  = extensionscontroller.EvalGenericPredicate obj ps &&
    extensionscontroller.EvalGenericPredicate obj qs.
Proof.
  induction ps as [| p ps IH]; simpl; trivial.
  now destruct (predicate.Generic p _).
Qed.

Lemma length_requestsOf predicates name mr :
  length (requestsOf predicates name mr) <= length (SecretRefs (Spec mr)).
Proof.
  unfold requestsOf, referenceCount.
  destruct (extensionscontroller.EvalGenericPredicate _ _); simpl; [| lia].
  rewrite repeat_length.
  etransitivity; [apply count_occ_bound |]. now rewrite length_map.
Qed.

(** What [Map] returns on any event, in one equation. *)
Lemma Map_cases m obj :
  Map m obj
  = match handler.Object obj with
    | Some (runtime.Secret secret) =>
        match client.List (client m)
                (client.InNamespace (secretNamespace secret)) with
        | inr l =>
            flat_map (requestsOf (predicates m) (secretName secret)) (Items l)
        | inl _ => []
        end
    | _ => []
    end.
Proof.
  destruct obj as [[[secret | mr | kind] |]]; trivial.
  simpl handler.Object.
  destruct (client.List (client m)
              (client.InNamespace (secretNamespace secret)))
    as [err | l] eqn:Hl.
  - rewrite ?Hl. unfold Map, secretNamespace, client.InNamespace in *.
    simpl in *. now rewrite Hl.
  - rewrite ?Hl. exact (Map_listed m secret l Hl).
Qed.

(** X1. Requests come in the order of the listing, each listed
    ManagedResource deciding on its own: when a listing is the
    concatenation of two listings, [Map] returns the requests of the first
    followed by the requests of the second. *)
Theorem Map_concatenates_listings c1 c2 c ps secret l1 l2 :
  client.List c1 (client.InNamespace (secretNamespace secret)) = inr l1 ->
  client.List c2 (client.InNamespace (secretNamespace secret)) = inr l2 ->
  client.List c (client.InNamespace (secretNamespace secret))
    = inr {| Items := Items l1 ++ Items l2 |} ->
  Map (SecretToManagedResourceMapper c ps) (secretEvent secret)
  = Map (SecretToManagedResourceMapper c1 ps) (secretEvent secret) ++
    Map (SecretToManagedResourceMapper c2 ps) (secretEvent secret).
Proof.
  intros H1 H2 H.
  rewrite (Map_listed (SecretToManagedResourceMapper c ps) secret _ H),
          (Map_listed (SecretToManagedResourceMapper c1 ps) secret _ H1),
          (Map_listed (SecretToManagedResourceMapper c2 ps) secret _ H2).
  simpl. apply flat_map_app.
Qed.

Lemma Map_concatenates_listings_witness :
  Map (SecretToManagedResourceMapper
         (client.fake [sample.mr2; sample.mr4; sample.mr1] None) [])
      (secretEvent sample.s1)
  = Map (SecretToManagedResourceMapper
           (client.fake [sample.mr2; sample.mr4] None) [])
        (secretEvent sample.s1) ++
    Map (SecretToManagedResourceMapper (client.fake [sample.mr1] None) [])
        (secretEvent sample.s1).
Proof.
  apply (Map_concatenates_listings _ _ _ [] sample.s1
           {| Items := [sample.mr2; sample.mr4] |}
           {| Items := [sample.mr1] |});
    reflexivity.
Defined.

(** X2. [Map] never returns more requests than the listed
    ManagedResources have secret references altogether; in particular a
    listing without references yields no request. *)
Theorem Map_length_bound m secret l :
  client.List (client m) (client.InNamespace (secretNamespace secret)) = inr l ->
  length (Map m (secretEvent secret)) <= length (listedReferences (Items l)).
Proof.
  intros Hl. rewrite (Map_listed _ _ _ Hl). unfold listedReferences.
  induction (Items l) as [| mr items IH]; simpl; trivial.
  rewrite !length_app.
  pose proof (length_requestsOf (predicates m) (secretName secret) mr). lia.
Qed.

Lemma Map_length_bound_witness :
  length (Map (SecretToManagedResourceMapper
                 (client.fake sample.cluster None)
                 [sample.changedSinceCreation])
              (secretEvent sample.s1)) <= 5.
Proof.
  exact (Map_length_bound
           (SecretToManagedResourceMapper (client.fake sample.cluster None)
              [sample.changedSinceCreation])
           sample.s1 {| Items := [sample.mr1; sample.mr2; sample.mr4] |}
           eq_refl).
Defined.

(** X3. On a Secret event whose listing succeeds, [Map] returns no request
    at all exactly when no listed ManagedResource that passes the
    predicates references the Secret by name. *)
Theorem Map_empty_iff m secret l :
  client.List (client m) (client.InNamespace (secretNamespace secret)) = inr l ->
  (Map m (secretEvent secret) = [] <->
   forall mr, In mr (Items l) -> passes mr (predicates m) ->
              ~ references mr (secretName secret)).
Proof.
  intros Hl. rewrite (Map_listed _ _ _ Hl). split.
  - intros Hnil mr Hin Hp Href.
    assert (Hr : In (requestFor mr)
              (flat_map (requestsOf (predicates m) (secretName secret))
                 (Items l))).
    { apply in_flat_map. exists mr. split; [assumption |].
      apply In_requestsOf. tauto. }
    rewrite Hnil in Hr. destruct Hr.
  - intros Hnone.
    destruct (flat_map _ (Items l)) as [| r rest] eqn:Hmap; trivial.
    assert (Hr : In r (flat_map (requestsOf (predicates m) (secretName secret))
                         (Items l))) by (rewrite Hmap; now left).
    apply in_flat_map in Hr. destruct Hr as (mr & Hin & Hr).
    apply In_requestsOf in Hr. destruct Hr as (Hp & Href & _).
    now destruct (Hnone mr Hin Hp).
Qed.

Lemma Map_empty_iff_witness :
  Map (SecretToManagedResourceMapper (client.fake [sample.mr4] None) [])
      (secretEvent sample.s1) = [] <->
  forall mr, In mr [sample.mr4] -> passes mr [] -> ~ references mr "s1".
Proof.
  exact (Map_empty_iff
           (SecretToManagedResourceMapper (client.fake [sample.mr4] None) [])
           sample.s1 {| Items := [sample.mr4] |} eq_refl).
Defined.

(** X4. Predicates only ever remove requests: with further predicates
    added to the set, no request occurs more often in the result of [Map]
    than without them, on any event. *)
Theorem Map_more_predicates_fewer_requests c ps qs obj r :
  count_occ reconcile.Request_eq_dec
    (Map (SecretToManagedResourceMapper c (ps ++ qs)) obj) r
  <= count_occ reconcile.Request_eq_dec
       (Map (SecretToManagedResourceMapper c ps) obj) r.
Proof.
  rewrite !Map_cases. simpl.
  destruct (handler.Object obj) as [[secret | mr | kind] |]; trivial.
  destruct (client.List c _) as [err | l]; trivial.
  induction (Items l) as [| mr items IH]; simpl; trivial.
  rewrite !count_occ_app.
  assert (Hmr : count_occ reconcile.Request_eq_dec
                  (requestsOf (ps ++ qs) (secretName secret) mr) r
                <= count_occ reconcile.Request_eq_dec
                     (requestsOf ps (secretName secret) mr) r).
  { unfold requestsOf. rewrite EvalGenericPredicate_app.
    destruct (extensionscontroller.EvalGenericPredicate _ ps),
             (extensionscontroller.EvalGenericPredicate _ qs);
      simpl; lia. }
  lia.
Qed.

(** X16. The order in which the client lists the ManagedResources changes
    only the order of the requests: listings that are permutations of each
    other yield request lists that are permutations of each other. *)
Theorem Map_listing_order_irrelevant c c' ps secret l l' :
  client.List c (client.InNamespace (secretNamespace secret)) = inr l ->
  client.List c' (client.InNamespace (secretNamespace secret)) = inr l' ->
  Permutation (Items l) (Items l') ->
  Permutation
    (Map (SecretToManagedResourceMapper c ps) (secretEvent secret))
    (Map (SecretToManagedResourceMapper c' ps) (secretEvent secret)).
Proof.
  intros Hl Hl' Hperm.
  rewrite (Map_listed (SecretToManagedResourceMapper c ps) secret _ Hl),
          (Map_listed (SecretToManagedResourceMapper c' ps) secret _ Hl').
  simpl. induction Hperm as [| mr items items' _ IH | mr mr' items
                             | items1 items2 items3 _ IH1 _ IH2]; simpl.
  - constructor.
  - now apply Permutation_app_head.
  - rewrite !app_assoc. apply Permutation_app_tail, Permutation_app_comm.
  - now transitivity
      (flat_map (requestsOf ps (secretName secret)) items2).
Qed.

Lemma Map_listing_order_irrelevant_witness :
  Permutation
    (Map (SecretToManagedResourceMapper
            (client.fake [sample.mr1; sample.mr2] None) [])
         (secretEvent sample.s1))
    (Map (SecretToManagedResourceMapper
            (client.fake [sample.mr2; sample.mr1] None) [])
         (secretEvent sample.s1)).
Proof.
  apply (Map_listing_order_irrelevant
           (client.fake [sample.mr1; sample.mr2] None)
           (client.fake [sample.mr2; sample.mr1] None) [] sample.s1
           {| Items := [sample.mr1; sample.mr2] |}
           {| Items := [sample.mr2; sample.mr1] |} eq_refl eq_refl).
  apply perm_swap.
Defined.

(* ------------------------------------------------------------------ *)
(** ** Credentials of the target cluster: further properties            *)
(* ------------------------------------------------------------------ *)

(** [getTargetConfig] by cases, for any path. *)
Lemma getTargetConfig_cases w kubeconfigPath :
  (kubeconfigPath <> "" /\
   app.getTargetConfig w kubeconfigPath
   = ([BuildConfigFromFlags "" kubeconfigPath],
      kubeconfigFile w kubeconfigPath)) \/
  (kubeconfigPath = "" /\ environ w "KUBECONFIG" <> "" /\
   app.getTargetConfig w kubeconfigPath
   = ([Getenv "KUBECONFIG";
       BuildConfigFromFlags "" (environ w "KUBECONFIG")],
      kubeconfigFile w (environ w "KUBECONFIG"))) \/
  (kubeconfigPath = "" /\ environ w "KUBECONFIG" = "" /\
   exists c, inCluster w = inr c /\
     app.getTargetConfig w kubeconfigPath
     = ([Getenv "KUBECONFIG"; InClusterConfig], inr c)) \/
  (kubeconfigPath = "" /\ environ w "KUBECONFIG" = "" /\
   isError (inCluster w) /\ isError (currentUser w) /\
   app.getTargetConfig w kubeconfigPath
   = ([Getenv "KUBECONFIG"; InClusterConfig; UserCurrent],
      inl (fmt_Errorf "could not create config for cluster"))) \/
  (kubeconfigPath = "" /\ environ w "KUBECONFIG" = "" /\
   isError (inCluster w) /\
   exists usr, currentUser w = inr usr /\
     app.getTargetConfig w kubeconfigPath
     = ([Getenv "KUBECONFIG"; InClusterConfig; UserCurrent;
         BuildConfigFromFlags ""
           (filepath_Join w [user.HomeDir usr; ".kube"; "config"])],
        match kubeconfigFile w
                (filepath_Join w [user.HomeDir usr; ".kube"; "config"])
        with
        | inr c => inr c
        | inl _ => inl (fmt_Errorf "could not create config for cluster")
        end)).
Proof.
  by_given kubeconfigPath.
  - left. split; [assumption | now apply getTargetConfig_path].
  - subst. right. by_given (environ w "KUBECONFIG").
    + left. repeat split; trivial. now apply getTargetConfig_env.
    + right. rewrite (getTargetConfig_fallback w E).
      destruct (inCluster w) as [err | c].
      * right. destruct (currentUser w) as [err' | usr].
        -- left. repeat split; auto.
        -- right. repeat split; auto. exists usr. now split.
      * left. repeat split; trivial. exists c. now split.
Qed.

(** X5. An error of [getTargetConfig] is the loader's own error when the
    kubeconfig named by the flag, or else by KUBECONFIG, fails to load;
    when neither is given, the errors of the in-cluster configuration, of
    the user lookup and of the home kubeconfig are all replaced by the one
    message "could not create config for cluster". *)
Theorem getTargetConfig_error_provenance w kubeconfigPath err :
  result (app.getTargetConfig w kubeconfigPath) = inl err ->
  (kubeconfigPath <> "" /\ kubeconfigFile w kubeconfigPath = inl err) \/
  (kubeconfigPath = "" /\ environ w "KUBECONFIG" <> "" /\
   kubeconfigFile w (environ w "KUBECONFIG") = inl err) \/
  (kubeconfigPath = "" /\ environ w "KUBECONFIG" = "" /\
   isError (inCluster w) /\
   err = errorString "could not create config for cluster").
Proof.
  destruct (getTargetConfig_cases w kubeconfigPath)
    as [(Hp & ->) | [(Hp & He & ->) | [(Hp & He & c & Hc & ->)
       | [(Hp & He & Hc & Hu & ->) | (Hp & He & Hc & usr & Hu & ->)]]]];
    unfold result; simpl; intros H.
  - now left.
  - right. left. auto.
  - discriminate H.
  - right. right. injection H as <-. auto.
  - right. right. destruct (kubeconfigFile w _); [| discriminate H].
    injection H as <-. auto.
Qed.

Lemma getTargetConfig_error_provenance_witness :
  let w := sample.world sample.noEnv sample.noFiles
             (inl sample.notInCluster) in
  let err := errorString "could not create config for cluster" in
  ("" <> "" /\ kubeconfigFile w "" = inl err) \/
  ("" = "" /\ environ w "KUBECONFIG" <> "" /\
   kubeconfigFile w (environ w "KUBECONFIG") = inl err) \/
  ("" = "" /\ environ w "KUBECONFIG" = "" /\
   isError (inCluster w) /\
   err = errorString "could not create config for cluster").
Proof.
  exact (getTargetConfig_error_provenance
           (sample.world sample.noEnv sample.noFiles
              (inl sample.notInCluster))
           "" (errorString "could not create config for cluster") eq_refl).
Defined.

(** X6. A configuration returned by [getTargetConfig] is handed over
    unchanged from the source that produced it: it is the content of a
    kubeconfig file that was loaded during the call, or the in-cluster
    configuration that was asked for during the call. *)
Theorem getTargetConfig_config_provenance w kubeconfigPath c :
  result (app.getTargetConfig w kubeconfigPath) = inr c ->
  (exists path,
     In (BuildConfigFromFlags "" path)
        (trace (app.getTargetConfig w kubeconfigPath)) /\
     kubeconfigFile w path = inr c) \/
  (In InClusterConfig (trace (app.getTargetConfig w kubeconfigPath)) /\
   inCluster w = inr c).
Proof.
  destruct (getTargetConfig_cases w kubeconfigPath)
    as [(Hp & ->) | [(Hp & He & ->) | [(Hp & He & c' & Hc & ->)
       | [(Hp & He & Hc & Hu & ->) | (Hp & He & Hc & usr & Hu & ->)]]]];
    unfold result, trace; simpl; intros H.
  - left. exists kubeconfigPath. auto.
  - left. exists (environ w "KUBECONFIG"). auto.
  - right. split; [auto | congruence].
  - discriminate H.
  - left. exists (filepath_Join w [user.HomeDir usr; ".kube"; "config"]).
    split; [auto 6 |].
    destruct (kubeconfigFile w _); [discriminate H | exact H].
Qed.

Lemma getTargetConfig_config_provenance_witness :
  (exists path,
     In (BuildConfigFromFlags "" path)
        (trace (app.getTargetConfig
                  (sample.world sample.noEnv sample.files
                     (inl sample.notInCluster)) "")) /\
     sample.files path = inr sample.kubeconfigC) \/
  (In InClusterConfig
      (trace (app.getTargetConfig
                (sample.world sample.noEnv sample.files
                   (inl sample.notInCluster)) "")) /\
   @inl error rest.Config sample.notInCluster = inr sample.kubeconfigC).
Proof.
  exact (getTargetConfig_config_provenance
           (sample.world sample.noEnv sample.files (inl sample.notInCluster))
           "" sample.kubeconfigC eq_refl).
Defined.

(** X7. One call of [getTargetConfig] makes at most four calls to the
    outside and loads at most one kubeconfig file, always without a
    master URL. *)
Theorem getTargetConfig_loads_at_most_one_file w kubeconfigPath :
  length (trace (app.getTargetConfig w kubeconfigPath)) <= 4 /\
  length (filter isLoad (trace (app.getTargetConfig w kubeconfigPath))) <= 1 /\
  forall masterUrl path,
    In (BuildConfigFromFlags masterUrl path)
       (trace (app.getTargetConfig w kubeconfigPath)) ->
    masterUrl = "".
Proof.
  destruct (getTargetConfig_cases w kubeconfigPath)
    as [(Hp & ->) | [(Hp & He & ->) | [(Hp & He & c' & Hc & ->)
       | [(Hp & He & Hc & Hu & ->) | (Hp & He & Hc & usr & Hu & ->)]]]];
    unfold trace; simpl; (split; [lia | split; [lia |]]);
    intros masterUrl path H;
    repeat (destruct H as [H | H]; try discriminate H;
            try (now injection H));
    destruct H.
Qed.

(* ------------------------------------------------------------------ *)
(** ** The run of the command: further properties                       *)
(* ------------------------------------------------------------------ *)

(** X8. A run that exits does so with code 1, once, and as its very last
    call. *)
Theorem Run_exits_last g w v code :
  In (Exit code) (trace (app.Run g w v)) ->
  code = 1%Z /\
  exists before,
    trace (app.Run g w v) = before ++ [Exit 1] /\
    forall code', ~ In (Exit code') before.
Proof.
  destruct (Run_outcome g w v) as (stage & Hout).
  destruct Hout; intros Hexit.
  - split; [outcome_calls Hexit; now injection Hexit |].
    exists [GetConfigOrDie]. split; [reflexivity |].
    intros code' H'. outcome_calls H'.
  - split; [outcome_calls Hexit; now injection Hexit |].
    exists [GetConfigOrDie; ManagerNew config (app.managerOptions v)].
    split; [reflexivity |]. intros code' H'. outcome_calls H'.
  - split; [outcome_calls Hexit; now injection Hexit |].
    exists (prelude w v config). split; [reflexivity |].
    intros code' H'. outcome_calls H'.
  - split; [outcome_calls Hexit; now injection Hexit |].
    eexists (prelude w v config ++ [_]).
    split; [now rewrite <- app_assoc |].
    intros code' H'. outcome_calls H'.
  - split; [outcome_calls Hexit; now injection Hexit |].
    eexists (prelude w v config ++ [_; _]).
    split; [now rewrite <- app_assoc |].
    intros code' H'. outcome_calls H'.
  - split; [outcome_calls Hexit; now injection Hexit |].
    eexists (prelude w v config ++ [_; _; _]).
    split; [now rewrite <- app_assoc |].
    intros code' H'. outcome_calls H'.
  - split; [outcome_calls Hexit; now injection Hexit |].
    eexists (prelude w v config ++ [_; _; _; _]).
    split; [now rewrite <- app_assoc |].
    intros code' H'. outcome_calls H'.
  - outcome_calls Hexit.
Qed.

Lemma Run_exits_last_witness :
  exists before,
    trace (app.Run sample.acceptAll (failingWorld true false) app.zero)
    = before ++ [Exit 1] /\
    forall code', ~ In (Exit code') before.
Proof.
  apply (Run_exits_last sample.acceptAll (failingWorld true false) app.zero 1).
  vm_compute. tauto.
Defined.

(** X9. The manager is started exactly when every step of the setup
    succeeded: a configuration for the source cluster, the manager, the
    target client, the controller and both watches. *)
Theorem Run_starts_iff_setup_succeeds g w v :
  In Start (trace (app.Run g w v)) <->
  exists config mgr targetClient,
    defaultConfig w = inr config /\
    newManager w config (app.managerOptions v) = inr mgr /\
    result (app.getTargetClient w (app.targetKubeconfigPath v))
      = inr targetClient /\
    newControllerError w "resource-controller"
      (app.controllerOptions v mgr targetClient) = None /\
    watchError w source.ManagedResource = None /\
    watchError w source.Secret = None.
Proof.
  destruct (Run_outcome g w v) as (stage & Hout). split.
  - intros Hin. destruct Hout; outcome_calls Hin;
      exists config, mgr, targetClient; auto 7.
  - intros (config' & mgr' & tc' & Hc & Hm & Ht & Hn & Hw1 & Hw2).
    destruct Hout;
      repeat match goal with
      | H : defaultConfig w = _, H' : defaultConfig w = _ |- _ =>
          rewrite H in H'; try discriminate H'; injection H' as ?; subst
      | H : newManager w _ _ = _, H' : newManager w _ _ = _ |- _ =>
          rewrite H in H'; try discriminate H'; injection H' as ?; subst
      | H : result _ = _, H' : result _ = _ |- _ =>
          rewrite H in H'; try discriminate H'; injection H' as ?; subst
      end;
      try congruence;
      apply in_or_app; right; simpl; tauto.
Qed.

(** X10. Wiring of the clients. The only controller a run creates is named
    resource-controller; its reconciler reads from the client of the
    manager and applies through the client that [getTargetClient]
    returned. The mapper of the Secret watch lists through the client of
    the manager as well, never through the target client. *)
Theorem Run_wires_clients g w v :
  (forall name options,
     In (ControllerNew name options) (trace (app.Run g w v)) ->
     name = "resource-controller" /\
     exists config mgr targetClient,
       defaultConfig w = inr config /\
       newManager w config (app.managerOptions v) = inr mgr /\
       result (app.getTargetClient w (app.targetKubeconfigPath v))
         = inr targetClient /\
       reconciler.sourceClient (controller.Reconciler options)
         = manager.GetClient mgr /\
       reconciler.targetClient (controller.Reconciler options)
         = targetClient) /\
  (forall m ps,
     In (Watch source.Secret (eventhandler.EnqueueRequestsFromMapFunc m) ps)
        (trace (app.Run g w v)) ->
     exists config mgr,
       defaultConfig w = inr config /\
       newManager w config (app.managerOptions v) = inr mgr /\
       client m = manager.GetClient mgr).
Proof.
  destruct (Run_outcome g w v) as (stage & Hout). split.
  - intros name options Hin.
    destruct Hout; outcome_calls Hin; injection Hin as <- <-;
      (split; [reflexivity |]); exists config, mgr, targetClient; auto 6.
  - intros m ps Hin.
    destruct Hout; outcome_calls Hin; injection Hin as <- <-;
      exists config, mgr; auto.
Qed.

Lemma Run_wires_clients_witness :
  exists config mgr,
    defaultConfig (failingWorld false false) = inr config /\
    newManager (failingWorld false false) config
      (app.managerOptions app.zero) = inr mgr /\
    client (SecretToManagedResourceMapper
              (client.fake sample.cluster None) [])
    = manager.GetClient mgr.
Proof.
  apply (proj2 (Run_wires_clients sample.acceptAll
                  (failingWorld false false) app.zero)
           (SecretToManagedResourceMapper (client.fake sample.cluster None) [])
           []).
  vm_compute. tauto.
Defined.

(** X11. The manager is created at most from the configuration of the
    source cluster, with leader election switched and placed as the flags
    say and under the fixed identity gardener-resource-manager. *)
Theorem Run_leader_election g w v config options :
  In (ManagerNew config options) (trace (app.Run g w v)) ->
  defaultConfig w = inr config /\
  manager.LeaderElection options = app.leaderElection v /\
  manager.LeaderElectionNamespace options = app.leaderElectionNamespace v /\
  manager.LeaderElectionID options = "gardener-resource-manager".
Proof.
  destruct (Run_outcome g w v) as (stage & Hout).
  intros Hin. destruct Hout; outcome_calls Hin; injection Hin as <- <-;
    repeat split; assumption.
Qed.

Lemma Run_leader_election_witness :
  defaultConfig (failingWorld true false) = inr sample.kubeconfigC /\
  manager.LeaderElection
    (app.managerOptions (app.Vars app.NewControllerManagerCommand))
  = app.leaderElection (app.Vars app.NewControllerManagerCommand) /\
  manager.LeaderElectionNamespace
    (app.managerOptions (app.Vars app.NewControllerManagerCommand))
  = app.leaderElectionNamespace (app.Vars app.NewControllerManagerCommand) /\
  manager.LeaderElectionID
    (app.managerOptions (app.Vars app.NewControllerManagerCommand))
  = "gardener-resource-manager".
Proof.
  apply (Run_leader_election sample.acceptAll (failingWorld true false)
           (app.Vars app.NewControllerManagerCommand)).
  vm_compute. tauto.
Defined.

(** X12. The watches are registered in order and only on a controller that
    was created: the ManagedResource watch needs the controller, and the
    Secret watch is registered only after the ManagedResource watch was
    accepted. *)
Theorem Run_registers_watches_in_order g w v :
  (forall src hdl ps,
     In (Watch src hdl ps) (trace (app.Run g w v)) ->
     exists options,
       In (ControllerNew "resource-controller" options)
          (trace (app.Run g w v)) /\
       newControllerError w "resource-controller" options = None) /\
  (forall hdl ps,
     In (Watch source.Secret hdl ps) (trace (app.Run g w v)) ->
     In (managedResourceWatch g) (trace (app.Run g w v)) /\
     watchError w source.ManagedResource = None).
Proof.
  destruct (Run_outcome g w v) as (stage & Hout). split.
  - intros src hdl ps Hin.
    destruct Hout; outcome_calls Hin;
      exists (app.controllerOptions v mgr targetClient);
      (split; [apply in_or_app; right; now left | assumption]).
  - intros hdl ps Hin.
    destruct Hout; outcome_calls Hin;
      (split; [apply in_or_app; right; right; now left | assumption]).
Qed.

Lemma Run_registers_watches_in_order_witness :
  exists options,
    In (ControllerNew "resource-controller" options)
       (trace (app.Run sample.acceptAll (failingWorld false true) app.zero)) /\
    newControllerError (failingWorld false true) "resource-controller" options
    = None.
Proof.
  apply (proj1 (Run_registers_watches_in_order sample.acceptAll
                  (failingWorld false true) app.zero)
           source.ManagedResource eventhandler.EnqueueRequestForObject
           [sample.acceptAll]).
  vm_compute. tauto.
Defined.

(** X13. With the target-kubeconfig flag set to a non-empty path,
    [getTargetClient] resolves the credentials of the target cluster by a
    single call, the load of that path without a master URL: it asks
    neither the environment, nor for the in-cluster configuration, nor for
    the current user. An error of the load is returned without creating a
    client; a configuration the load answers is the one the client is
    created from, with the fixed rate limits. *)
Theorem target_kubeconfig_flag_decides w cmd path cmd' :
  app.Flags cmd = app.Flags app.NewControllerManagerCommand ->
  path <> "" ->
  app.Set_ cmd "target-kubeconfig" (app.stringArg path) = inr cmd' ->
  app.getTargetClient w (app.targetKubeconfigPath (app.Vars cmd'))
  = match kubeconfigFile w path with
    | inl err => ([BuildConfigFromFlags "" path], inl err)
    | inr targetConfig =>
        ([BuildConfigFromFlags "" path; ClientNew (rateLimited targetConfig)],
         newClient w (rateLimited targetConfig))
    end.
Proof.
  intros Hflags Hpath Hset.
  assert (Hvar : app.targetKubeconfigPath (app.Vars cmd') = path).
  { unfold app.Set_, app.Lookup in Hset. rewrite Hflags in Hset.
    simpl in Hset. injection Hset as <-. reflexivity. }
  rewrite Hvar. unfold app.getTargetClient.
  rewrite (getTargetConfig_path w path Hpath).
  unfold bind, ret, client_New, call, rateLimited.
  now destruct (kubeconfigFile w path).
Qed.

Lemma target_kubeconfig_flag_decides_witness :
  app.getTargetClient
    (sample.world (sample.envKubeconfig "/etc/b") sample.files
       (inr sample.kubeconfigC))
    "/etc/a"
  = ([BuildConfigFromFlags "" "/etc/a";
      ClientNew {| rest.Host := "https://a.example";
                   rest.QPS := 100.0%Q; rest.Burst := 130%Z |}],
     inr (client.fake [] None)).
Proof.
  exact (target_kubeconfig_flag_decides
           (sample.world (sample.envKubeconfig "/etc/b") sample.files
              (inr sample.kubeconfigC))
           app.NewControllerManagerCommand "/etc/a"
           {| app.Use := app.Use app.NewControllerManagerCommand;
              app.Flags := app.Flags app.NewControllerManagerCommand;
              app.Vars := app.targetKubeconfigPath_ptr "/etc/a"
                            (app.Vars app.NewControllerManagerCommand) |}
           eq_refl ltac:(discriminate) eq_refl).
Defined.

(* ------------------------------------------------------------------ *)
(** ** The flags: further properties                                    *)
(* ------------------------------------------------------------------ *)

(** Splits on which of the declared flags a name is. *)
Ltac which_flag name :=
  repeat match goal with
  | |- context [String.eqb ?a name] =>
      destruct (String.eqb_spec a name) as [<- | ?]
  | H : context [String.eqb ?a name] |- _ =>
      destruct (String.eqb_spec a name) as [<- | ?]
  end.

(** Setting a flag keeps the flag set and writes no variable but the one
    the flag points to. *)
Lemma Set_writes_one_variable cmd name arg cmd' :
  app.Flags cmd = app.Flags app.NewControllerManagerCommand ->
  app.Set_ cmd name arg = inr cmd' ->
  app.Flags cmd' = app.Flags app.NewControllerManagerCommand /\
  (name <> "leader-election" ->
   app.leaderElection (app.Vars cmd') = app.leaderElection (app.Vars cmd)) /\
  (name <> "leader-election-namespace" ->
   app.leaderElectionNamespace (app.Vars cmd')
   = app.leaderElectionNamespace (app.Vars cmd)) /\
  (name <> "sync-period" ->
   app.syncPeriod (app.Vars cmd') = app.syncPeriod (app.Vars cmd)) /\
  (name <> "target-kubeconfig" ->
   app.targetKubeconfigPath (app.Vars cmd')
   = app.targetKubeconfigPath (app.Vars cmd)) /\
  (name <> "max-concurrent-workers" ->
   app.maxConcurrentWorkers (app.Vars cmd')
   = app.maxConcurrentWorkers (app.Vars cmd)) /\
  (name <> "namespace" ->
   app.namespace (app.Vars cmd') = app.namespace (app.Vars cmd)).
Proof.
  intros Hflags Hset. unfold app.Set_, app.Lookup in Hset.
  rewrite Hflags in Hset. cbn -[String.eqb app.inInt64] in Hset.
  which_flag name; cbn -[String.eqb app.inInt64] in Hset;
    try discriminate Hset;
    destruct arg; try discriminate Hset;
    try (destruct (app.inInt64 _); [| discriminate Hset]);
    injection Hset as <-; simpl;
    repeat split; trivial; intros Hne; try reflexivity;
    now destruct Hne.
Qed.

Lemma Parse_writes_named_variables args :
  forall cmd0 cmd,
    app.Flags cmd0 = app.Flags app.NewControllerManagerCommand ->
    app.Parse cmd0 args = inr cmd ->
    (~ In "leader-election" (map fst args) ->
     app.leaderElection (app.Vars cmd) = app.leaderElection (app.Vars cmd0)) /\
    (~ In "leader-election-namespace" (map fst args) ->
     app.leaderElectionNamespace (app.Vars cmd)
     = app.leaderElectionNamespace (app.Vars cmd0)) /\
    (~ In "sync-period" (map fst args) ->
     app.syncPeriod (app.Vars cmd) = app.syncPeriod (app.Vars cmd0)) /\
    (~ In "target-kubeconfig" (map fst args) ->
     app.targetKubeconfigPath (app.Vars cmd)
     = app.targetKubeconfigPath (app.Vars cmd0)) /\
    (~ In "max-concurrent-workers" (map fst args) ->
     app.maxConcurrentWorkers (app.Vars cmd)
     = app.maxConcurrentWorkers (app.Vars cmd0)) /\
    (~ In "namespace" (map fst args) ->
     app.namespace (app.Vars cmd) = app.namespace (app.Vars cmd0)).
Proof.
  induction args as [| [name arg] args IH]; intros cmd0 cmd Hflags Hparse.
  - injection Hparse as <-. tauto.
  - simpl in Hparse.
    destruct (app.Set_ cmd0 name arg) as [err | cmd1] eqn:Hset;
      [discriminate Hparse |].
    destruct (Set_writes_one_variable _ _ _ _ Hflags Hset)
      as (Hflags1 & S1 & S2 & S3 & S4 & S5 & S6).
    destruct (IH cmd1 cmd Hflags1 Hparse) as (P1 & P2 & P3 & P4 & P5 & P6).
    simpl.
    repeat split; intros Hnot;
      match goal with
      | |- ?f (app.Vars cmd) = _ =>
          transitivity (f (app.Vars cmd1)); [| now auto]
      end; auto.
Qed.

(** X14. Flags that a command line does not name keep their defaults:
    leader election on, no leader-election namespace, a sync period of one
    minute, no target kubeconfig, ten workers and all namespaces. Each flag
    writes its own variable only. *)
Theorem Parse_keeps_defaults args cmd :
  app.Parse app.NewControllerManagerCommand args = inr cmd ->
  (~ In "leader-election" (map fst args) ->
   app.leaderElection (app.Vars cmd) = true) /\
  (~ In "leader-election-namespace" (map fst args) ->
   app.leaderElectionNamespace (app.Vars cmd) = "") /\
  (~ In "sync-period" (map fst args) ->
   app.syncPeriod (app.Vars cmd) = time.Minute) /\
  (~ In "target-kubeconfig" (map fst args) ->
   app.targetKubeconfigPath (app.Vars cmd) = "") /\
  (~ In "max-concurrent-workers" (map fst args) ->
   app.maxConcurrentWorkers (app.Vars cmd) = 10%Z) /\
  (~ In "namespace" (map fst args) ->
   app.namespace (app.Vars cmd) = "").
Proof.
  intros Hparse.
  exact (Parse_writes_named_variables args app.NewControllerManagerCommand
           cmd eq_refl Hparse).
Qed.

Lemma Parse_keeps_defaults_witness :
  app.syncPeriod
    (app.namespace_ptr "garden"
       (app.maxConcurrentWorkers_ptr 3%Z
          (app.Vars app.NewControllerManagerCommand)))
  = time.Minute.
Proof.
  refine (proj1 (proj2 (proj2 (Parse_keeps_defaults
            [("max-concurrent-workers", app.intArg 3%Z);
             ("namespace", app.stringArg "garden")]
            {| app.Use := "gardener-resource-manager";
               app.Flags := app.Flags app.NewControllerManagerCommand;
               app.Vars := app.namespace_ptr "garden"
                             (app.maxConcurrentWorkers_ptr 3%Z
                                (app.Vars app.NewControllerManagerCommand)) |}
            eq_refl))) _).
  simpl. intros [H | [H | []]]; discriminate H.
Defined.
